(** * ganenblue-py: human behaviour simulation and session pacing

    A shallow embedding of [src/human_simulator.py] (classes [HumanBehavior]
    and [TimingVariation]) and of the [SAFETY_CONFIG] table of
    [src/settings.py], followed by the properties of the timing engine.

    Conventions of the embedding.
    - Python [float] values are embedded as exact rationals ([Q]); numeric
      equalities are stated with [==].  Python [int] values are [Z], and
      [//] is [Z.div] (both round towards minus infinity).
    - The clock and the random sources are not hidden globals here: every
      reading of [time.time()] and every draw of [random] / [numpy.random]
      that a function performs is an explicit argument of its embedding.
    - The fields of a [TimingVariation] object are threaded through a small
      state monad; the observable actions of [HumanBehavior] (sleeping,
      scrolling) are collected in a trace. *)

From Stdlib Require Import QArith Qminmax Qabs Lqa ZArith Lia Floats.
From stdpp Require Import gmap strings list.

Open Scope Q_scope.

(** ** Python and numpy primitives used by the source *)

Module Py.

(** Exceptions raised by the library calls of the source: by
    [numpy.random.normal] and [time.sleep] ([ValueError]), by [time.sleep]
    ([OverflowError]), by the calls on the WebDriver
    ([WebDriverException]). *)
Inductive exn : Type :=
| ValueError (msg : string)
| OverflowError
| WebDriverException.

Definition result (A : Type) : Type := (exn + A)%type.

#[global] Instance result_ret : MRet result := fun A a => inr a.
#[global] Instance result_bind : MBind result :=
  fun A B k m => match m with inl e => inl e | inr a => k a end.

(** Comparison operators of Python on floats. *)
Definition Qltb (x y : Q) : bool := negb (Qle_bool y x).
Definition Qgeb (x y : Q) : bool := Qle_bool y x.

(** [min(a, b)]: the first argument unless the second is strictly
    smaller, which is what [Qmin] computes. *)
Definition min (a b : Q) : Q := Qmin a b.

(** [random.uniform(a, b)] is [a + (b - a) * self.random()]; [u] is the
    value of [random()], a float of the interval [0, 1). *)
Definition random_uniform (a b u : Q) : Q := a + (b - a) * u.

(** [random.randint(a, b)] is [a + self._randbelow(b - a + 1)]; [k] is
    the value of [_randbelow], an integer with [0 <= k < b - a + 1]. *)
Definition random_randint (a b k : Z) : Z := (a + k)%Z.

(** [numpy.random.normal(loc, scale)] rejects a negative [scale] and
    otherwise returns [loc + scale * g], [g] a standard normal draw. *)
Definition np_random_normal (loc scale g : Q) : result Q :=
  if Qltb scale 0 then inl (ValueError "scale < 0")
  else inr (loc + scale * g).

(** [numpy.clip(x, lo, hi)] is [minimum(maximum(x, lo), hi)]. *)
Definition np_clip (x lo hi : Q) : Q := Qmin (Qmax x lo) hi.
Definition np_clip_int (x lo hi : Z) : Z := Z.min (Z.max x lo) hi.

(** [int(x)] on a float truncates towards zero. *)
Definition int (x : Q) : Z := Z.quot (Qnum x) (Zpos (Qden x)).

End Py.

(** ** [config/settings.py]: the [SAFETY_CONFIG] table *)

Module Settings.

(** The entries of [SAFETY_CONFIG] read by [human_simulator.py].  All but
    [RANDOM_VARIANCE] are taken from the process environment. *)
Record SafetyConfig : Type := {
  MAX_SESSION_DURATION : Z;
  MIN_BREAK_DURATION : Z;
  BREAK_FREQUENCY : Z;
  MIN_CLICK_DELAY : Q;
  MAX_CLICK_DELAY : Q;
  RANDOM_VARIANCE : Q;
  ENABLE_FATIGUE : bool
}.

(** The table when no environment variable is set. *)
Definition SAFETY_CONFIG : SafetyConfig := {|
  MAX_SESSION_DURATION := 14400;
  MIN_BREAK_DURATION := 600;
  BREAK_FREQUENCY := 3600;
  MIN_CLICK_DELAY := 0.5;
  MAX_CLICK_DELAY := 2.0;
  RANDOM_VARIANCE := 0.3;
  ENABLE_FATIGUE := true
|}.

End Settings.

(** ** class [HumanBehavior] *)

Module HumanBehavior.
Import Py.

(** What a method does to the outside world, in order. *)
Inductive Effect : Type :=
| Sleep (seconds : Q)        (* time.sleep(seconds) *)
| ScrollWindowBy (dy : Z)    (* window.scrollBy(0, dy) *)
| ScrollElementBy (dy : Z).  (* arguments[0].scrollTop += dy *)

(** A static method: the effects performed, then the value returned or
    the exception raised.  Python's [None] is [tt]. *)
Definition IO (A : Type) : Type := (list Effect * result A)%type.

#[global] Instance IO_ret : MRet IO := fun A a => ([], inr a).
#[global] Instance IO_bind : MBind IO :=
  fun A B k m =>
    match m with
    | (tr, inl e) => (tr, inl e)
    | (tr, inr a) => let (tr', r) := k a in (tr ++ tr', r)
    end.

Definition lift {A} (r : result A) : IO A := ([], r).
Definition perform (e : Effect) : IO unit := ([e], inr tt).

Definition effects {A} (m : IO A) : list Effect := fst m.
Definition outcome {A} (m : IO A) : result A := snd m.

(** [time.sleep] converts the length to a signed 64-bit count of
    nanoseconds, rounding away from zero: these are the largest and the
    smallest count. *)
Definition sleep_ns_max : Q := 9223372036854775807.
Definition sleep_ns_min : Q := - 9223372036854775808.

(** The longest sleep, in seconds (about 292 years). *)
Definition sleep_limit : Q := sleep_ns_max / 1000000000.

(** Lengths that [time.sleep] surely accepts and surely refuses, in
    milliseconds and in seconds: nine billion seconds is within the limit
    and 9.3 billion beyond it, each by a margin that makes the rounding of
    the last nanosecond irrelevant. *)
Definition sleepable_sec : Q := 9000000000.
Definition sleepable_ms : Q := 9000000000000.
Definition unsleepable_ms : Q := 9300000000000.

(** [time.sleep]: a length whose nanosecond count does not fit is an
    [OverflowError]; after that check a negative length is rejected.  (A
    negative float so small that it has underflowed to [-0.0] is accepted
    as zero; rationals have no such value, and the statements below keep
    negative lengths at least a nanosecond away from zero.) *)
Definition time_sleep (seconds : Q) : IO unit :=
  let ns := seconds * 1000000000 in
  if Qltb sleep_ns_max ns || Qltb ns sleep_ns_min
  then lift (inl OverflowError)
  else if Qltb seconds 0
  then lift (inl (ValueError "sleep length must be non-negative"))
  else perform (Sleep seconds).

(** [for x in l: body(x)]. *)
Fixpoint for_each {A} (l : list A) (body : A -> IO unit) : IO unit :=
  match l with
  | [] => mret tt
  | x :: l' => body x;; for_each l' body
  end.

(** [range(n)]. *)
Definition range (n : Z) : list nat := seq 0 (Z.to_nat n).

(** [human_delay].  [draw] is the value obtained from the random source:
    the standard normal deviate behind [np.random.normal] when
    [distribution] is ['normal'], the value of [random()] behind
    [random.uniform] otherwise. *)
Definition human_delay (min_ms max_ms : Q) (distribution : string)
    (draw : Q) : IO unit :=
  delay_ms ←
    (if decide (distribution = "normal") then
       let mean := (min_ms + max_ms) / 2 in
       let std_dev := (max_ms - min_ms) / 6 in
       delay_ms ← lift (np_random_normal mean std_dev draw);
       mret (np_clip delay_ms min_ms max_ms)
     else
       mret (random_uniform min_ms max_ms draw));
  time_sleep (delay_ms / 1000).

(** The offset computed by [human_click] from [element.size]
    ([width], [height]) and two standard normal draws, up to the clamp
    "to element bounds"; the click is then sent to this offset from the
    centre of the element.  An exception raised here is caught by the
    [except] clause of [human_click]. *)
Definition human_click_offset (variance width height : Z) (gx gy : Q)
    : result (Z * Z) :=
  let max_offset_x := Z.min variance (width / 3) in
  let max_offset_y := Z.min variance (height / 3) in
  x ← np_random_normal 0 (inject_Z max_offset_x / 2) gx;
  let offset_x := int x in
  y ← np_random_normal 0 (inject_Z max_offset_y / 2) gy;
  let offset_y := int y in
  let offset_x :=
    np_clip_int offset_x ((- width) / 2 + 5) (width / 2 - 5) in
  let offset_y :=
    np_clip_int offset_y ((- height) / 2 + 5) (height / 2 - 5) in
  mret (offset_x, offset_y).

(** The draws of one call of [human_scroll]: [_randbelow] behind
    [randint(100, 500)] and behind [randint(2, 5)], and the normal
    deviate of the pause after step [i]. *)
Record ScrollDraws : Type := {
  k_amount : Z;
  k_steps : Z;
  g_pause : nat -> Q
}.

(** [driver.execute_script]: the page runs the script, or the call raises
    a WebDriver error ([ok] tells which). *)
Definition execute_script (ok : bool) (e : Effect) : IO unit :=
  if ok then perform e else lift (inl WebDriverException).

(** [human_scroll]; [element] tells whether an element was passed, and
    [page i] whether [driver.execute_script] returns at step [i].  There
    is no [try] around the loop: an error ends the call at that step.
    [steps] is at least 2, so that [//] does not divide by zero. *)
Definition human_scroll_on (page : nat -> bool) (direction : string)
    (amount : option Z) (element : bool) (d : ScrollDraws) : IO unit :=
  let amount :=
    match amount with
    | None => random_randint 100 500 (k_amount d)
    | Some a => a
    end in
  let scroll_amount :=
    if decide (direction = "down") then amount else (- amount)%Z in
  let steps := random_randint 2 5 (k_steps d) in
  let scroll_per_step := (scroll_amount / steps)%Z in
  for_each (range steps) (fun i =>
    execute_script (page i)
      (if element then ScrollElementBy scroll_per_step
       else ScrollWindowBy scroll_per_step);;
    human_delay 50 150 "normal" (g_pause d i)).

(** [human_scroll] on a page that runs every script. *)
Definition human_scroll (direction : string) (amount : option Z)
    (element : bool) (d : ScrollDraws) : IO unit :=
  human_scroll_on (fun _ => true) direction amount element d.

(** The pixel deltas sent to the page, in order. *)
Definition scroll_deltas (tr : list Effect) : list Z :=
  omap (fun e => match e with
                 | ScrollWindowBy dy | ScrollElementBy dy => Some dy
                 | Sleep _ => None
                 end) tr.

Definition sum_list (l : list Z) : Z := foldr Z.add 0%Z l.


(** Gestures queued on the [ActionChains] object of [human_click]. *)
Inductive Gesture : Type :=
| MoveToElementWithOffset (dx dy : Z)
| Click.

(** What [human_click] does, in order: an effect of [human_delay], a call
    of [actions.perform()] on the queued chain, a call of
    [element.click()]; [ok] tells whether the call returned or raised. *)
Inductive ClickEvent : Type :=
| Waited (e : Effect)
| Performed (chain : list Gesture) (ok : bool)
| ElementClicked (ok : bool).

(** How the page answers the calls of [human_click]:
    [element.is_displayed()] ([None] when it raises), whether
    [actions.perform()] returns, whether [element.click()] returns. *)
Record ClickPage : Type := {
  is_displayed : option bool;
  perform_ok : bool;
  click_ok : bool
}.

(** [human_click]: the events and the value returned.  The gestures are
    queued and only sent by [perform()], after the pause. *)
Definition human_click (page : ClickPage) (variance width height : Z)
    (gx gy g_pause : Q) : list ClickEvent * bool :=
  (* except Exception: try: element.click(); return True
     except: return False *)
  let fallback (tr : list ClickEvent) :=
    (tr ++ [ElementClicked (click_ok page)], click_ok page) in
  match is_displayed page with
  | None => fallback []
  | Some false => ([], false)
  | Some true =>
      match human_click_offset variance width height gx gy with
      | inl _ => fallback []
      | inr (offset_x, offset_y) =>
          let actions := [MoveToElementWithOffset offset_x offset_y] in
          match human_delay 50 200 "normal" g_pause with
          | (tr, inl _) => fallback (Waited <$> tr)
          | (tr, inr _) =>
              let actions := actions ++ [Click] in
              let tr :=
                (Waited <$> tr) ++ [Performed actions (perform_ok page)] in
              if perform_ok page then (tr, true) else fallback tr
          end
      end
  end.

(** [random_mouse_movement]: the offsets passed to [move_by_offset], or
    [None] when no movement is attempted; [coin] is the value of
    [random.random()], [kx] and [ky] the values of [_randbelow] behind the
    two calls of [randint].  A failure of the movement is swallowed by
    [except: pass]. *)
Definition random_mouse_movement (coin : Q) (small_movement : bool)
    (kx ky : Z) : option (Z * Z) :=
  if Qltb coin 0.3 then
    let '(x_offset, y_offset) :=
      if small_movement
      then (random_randint (-50) 50 kx, random_randint (-30) 30 ky)
      else (random_randint (-200) 200 kx, random_randint (-100) 100 ky) in
    Some (x_offset, y_offset)
  else None.

(** [reading_pause]; [u] is the value of [random()]. *)
Definition reading_pause (min_sec max_sec u : Q) : IO unit :=
  let delay := random_uniform min_sec max_sec u in
  time_sleep delay.

(** [random.choice(seq)] is [seq[self._randbelow(len(seq))]]; [None]
    stands for the [IndexError] of an index that [_randbelow] excludes. *)
Definition random_choice (seq : string) (k : nat)
    : option Ascii.ascii :=
  String.get k seq.

(** The character ['\b'], code 8. *)
Definition backspace : Ascii.ascii := Ascii.ascii_of_nat 8.

(** [typo_simulation]; [coin] is the value of [random.random()], [k] the
    value of [_randbelow(26)]. *)
Definition typo_simulation (text : string) (coin : Q) (k : nat)
    : option string :=
  if Qltb coin 0.05 then
    typo_char ← random_choice "abcdefghijklmnopqrstuvwxyz" k;
    Some ((text +:+ String typo_char "") +:+ String backspace "")
  else Some text.

(** [occasional_mistake]. *)
Definition occasional_mistake (coin : Q) : bool := Qltb coin 0.03.

End HumanBehavior.

(** ** class [TimingVariation] *)

Module TimingVariation.
Import Settings.

(** One entry of [action_history]: the dict with keys ['time'], ['type']
    and ['delay']. *)
Record ActionRecord : Type := {
  rec_time : Q;
  rec_type : string;
  rec_delay : Q
}.

(** The instance attributes set by [__init__]. *)
Record t : Type := {
  start_time : Q;
  action_count : Z;
  last_break_time : Q;
  action_history : list ActionRecord
}.

(** [__init__] reads the clock twice. *)
Definition init (now1 now2 : Q) : t := {|
  start_time := now1;
  action_count := 0;
  last_break_time := now2;
  action_history := []
|}.

(** Methods are computations over [self]. *)
Definition M (A : Type) : Type := t -> A * t.

#[global] Instance M_ret : MRet M := fun A a self => (a, self).
#[global] Instance M_bind : MBind M :=
  fun A B k m self => let (a, self') := m self in k a self'.
Definition gets {A} (f : t -> A) : M A := fun self => (f self, self).
Definition modify (f : t -> t) : M unit := fun self => (tt, f self).

Definition set_action_count (n : Z) (self : t) : t := {|
  start_time := start_time self;
  action_count := n;
  last_break_time := last_break_time self;
  action_history := action_history self
|}.

Definition set_action_history (h : list ActionRecord) (self : t) : t := {|
  start_time := start_time self;
  action_count := action_count self;
  last_break_time := last_break_time self;
  action_history := h
|}.

Definition set_last_break_time (x : Q) (self : t) : t := {|
  start_time := start_time self;
  action_count := action_count self;
  last_break_time := x;
  action_history := action_history self
|}.

(** The clock readings and draws of one call of [get_delay]: the clock
    in [_calculate_fatigue], [random()] behind the two calls of
    [random.uniform], the clock in the history record. *)
Record DelayDraws : Type := {
  now_fatigue : Q;
  u_base : Q;
  u_variance : Q;
  now_record : Q
}.

(** The values of [random()] behind the four entries of [durations]. *)
Record BreakDraws : Type := {
  u_micro : Q;
  u_short : Q;
  u_scheduled : Q;
  u_long : Q
}.

(** The dict returned by [get_session_stats]. *)
Record SessionStats : Type := {
  session_duration_hours : Q;
  total_actions : Z;
  time_since_break_minutes : Q;
  current_fatigue : Q;
  actions_per_hour : Q
}.

Section Methods.
Variable cfg : SafetyConfig.

(** [_calculate_fatigue]; [now] is the reading of [time.time()]. *)
Definition _calculate_fatigue (now : Q) : M Q :=
  if negb (ENABLE_FATIGUE cfg) then mret 1.0
  else
    start ← gets start_time;
    let session_duration := now - start in
    let hours := session_duration / 3600 in
    let fatigue := Py.min 1.25 (1.0 + hours * 0.05) in
    n ← gets action_count;
    if (500 <? n)%Z then
      let action_fatigue := 1.0 + inject_Z (n - 500) / 10000 in
      mret (fatigue * Py.min 1.1 action_fatigue)
    else mret fatigue.

(** The table [delay_ranges] of [get_delay]. *)
Definition delay_ranges : gmap string (Q * Q) :=
  list_to_map [
    ("click", (MIN_CLICK_DELAY cfg, MAX_CLICK_DELAY cfg));
    ("battle", (0.3, 0.8));
    ("reading", (1.0, 3.0));
    ("summon", (0.5, 1.5));
    ("results", (0.8, 2.0));
    ("navigation", (0.4, 1.0))
  ].

(** [get_delay]: returns [final_delay]. *)
Definition get_delay (action_type : string) (d : DelayDraws) : M Q :=
  let '(min_delay, max_delay) :=
    default (0.3, 0.8) (delay_ranges !! action_type) in
  fatigue ← _calculate_fatigue (now_fatigue d);
  let variance := RANDOM_VARIANCE cfg in
  let base_delay := Py.random_uniform min_delay max_delay (u_base d) in
  let delay_with_fatigue := base_delay * fatigue in
  let final_delay :=
    delay_with_fatigue
    * Py.random_uniform (1 - variance) (1 + variance) (u_variance d) in
  n ← gets action_count;
  modify (set_action_count (n + 1));;
  h ← gets action_history;
  modify (set_action_history
            (h ++ [{| rec_time := now_record d;
                      rec_type := action_type;
                      rec_delay := final_delay |}]));;
  h ← gets action_history;
  (if (100 <? Z.of_nat (length h))%Z
   then modify (set_action_history (drop 1 h))   (* pop(0) *)
   else mret tt);;
  mret final_delay.

(** [_get_break_duration]: the dict [durations] is built in full, one
    draw per entry, before the lookup. *)
Definition _get_break_duration (break_type : string) (d : BreakDraws)
    : M Q :=
  let durations : gmap string Q :=
    list_to_map [
      ("micro", Py.random_uniform 30 120 (u_micro d));
      ("short", Py.random_uniform 300 600 (u_short d));
      ("scheduled", Py.random_uniform 600 1200 (u_scheduled d));
      ("long", Py.random_uniform 1800 3600 (u_long d))
    ] in
  mret (default 600 (durations !! break_type)).

(** [should_take_break]: [now] is the reading of [time.time()], [coin]
    the value of [random.random()]. *)
Definition should_take_break (now coin : Q) (d : BreakDraws)
    : M (bool * Q) :=
  let current_time := now in
  last ← gets last_break_time;
  let time_since_break := current_time - last in
  if Py.Qgeb time_since_break (inject_Z (BREAK_FREQUENCY cfg)) then
    duration ← _get_break_duration "scheduled" d;
    mret (true, duration)
  else if Py.Qltb coin 0.001 then
    duration ← _get_break_duration "micro" d;
    mret (true, duration)
  else
    start ← gets start_time;
    let session_duration := current_time - start in
    if Py.Qgeb session_duration (inject_Z (MAX_SESSION_DURATION cfg))
    then
      duration ← _get_break_duration "long" d;
      mret (true, duration)
    else mret (false, 0).

(** [record_break]. *)
Definition record_break (now : Q) : M unit :=
  modify (set_last_break_time now).

(** A driving loop that asks for one delay per entry of [calls]. *)
Fixpoint get_delays (calls : list (string * DelayDraws)) : M (list Q) :=
  match calls with
  | [] => mret []
  | (action_type, d) :: calls' =>
      x ← get_delay action_type d;
      xs ← get_delays calls';
      mret (x :: xs)
  end.

(** [get_session_stats]; the clock is read for [session_duration], for
    [time_since_break] and in [_calculate_fatigue]. *)
Definition get_session_stats (now1 now2 now3 : Q) : M SessionStats :=
  start ← gets start_time;
  let session_duration := now1 - start in
  last ← gets last_break_time;
  let time_since_break := now2 - last in
  n ← gets action_count;
  fatigue ← _calculate_fatigue now3;
  mret {| session_duration_hours := session_duration / 3600;
          total_actions := n;
          time_since_break_minutes := time_since_break / 60;
          current_fatigue := fatigue;
          actions_per_hour :=
            if Py.Qltb 0 session_duration
            then inject_Z n / (session_duration / 3600)
            else 0 |}.

End Methods.

End TimingVariation.

(** ** The fatigue curve as the specification words it *)

Module Spec.

(** 5% extra slowdown per elapsed hour, capped at +25%. *)
Definition time_component (t_hours : Q) : Q :=
  Qmin 1.25 (1.0 + 0.05 * t_hours).

(** Up to +10% slowdown after 500 actions. *)
Definition count_component (n : Z) : Q :=
  if (500 <? n)%Z then Qmin 1.1 (1.0 + inject_Z (n - 500) / 10000)
  else 1.0.

(** The product of the two capped terms; 1 when fatigue is disabled. *)
Definition fatigue_multiplier (enabled : bool) (t_hours : Q) (n : Z) : Q :=
  if enabled then time_component t_hours * count_component n else 1.0.

End Spec.

(** ** The time component in binary64 arithmetic

    The same expressions as in [_calculate_fatigue], on IEEE 754 doubles
    (the representation of a Python [float]), to check that the values the
    rational model gives at the points named by the specification are
    also the ones the rounded operations give. *)

Module Binary64.

#[local] Set Warnings "-inexact-float".

(** [min(a, b)] on floats. *)
Definition min (a b : float) : float :=
  if PrimFloat.ltb b a then b else a.

(** [min(1.25, 1.0 + (hours * 0.05))] with [hours = session_duration / 3600]. *)
Definition time_fatigue (session_duration : float) : float :=
  let hours := (session_duration / 3600)%float in
  min 1.25%float (1.0 + (hours * 0.05))%float.

(** [min(1.1, 1.0 + ((action_count - 500) / 10000))], the difference
    [action_count - 500] given as a float. *)
Definition action_fatigue (count_minus_500 : float) : float :=
  min 1.1%float (1.0 + (count_minus_500 / 10000))%float.

Definition one : float := 1.0%float.
Definition one_point_one : float := 1.1%float.
Definition one_point_two_five : float := 1.25%float.
Definition one_point_three_seven_five : float := 1.375%float.

End Binary64.

Import Py Settings HumanBehavior TimingVariation.

(** ** Names for the intermediate values of [get_delay] *)

Section GetDelayValues.
Variable cfg : SafetyConfig.

(** The local [base_delay]. *)
Definition base_delay_of (action_type : string) (d : DelayDraws) : Q :=
  let '(min_delay, max_delay) :=
    default (0.3, 0.8) (delay_ranges cfg !! action_type) in
  random_uniform min_delay max_delay (u_base d).

(** The last factor of [final_delay]. *)
Definition variance_factor (d : DelayDraws) : Q :=
  random_uniform (1 - RANDOM_VARIANCE cfg) (1 + RANDOM_VARIANCE cfg)
    (u_variance d).

(** The local [final_delay]: base delay, times the fatigue computed on
    the object as the call finds it, times the variance factor. *)
Definition final_delay_of (action_type : string) (d : DelayDraws)
    (self : t) : Q :=
  base_delay_of action_type d
  * fst (_calculate_fatigue cfg (now_fatigue d) self)
  * variance_factor d.

(** The record that a call appends to [action_history]. *)
Definition appended_record (action_type : string) (d : DelayDraws)
    (self : t) : ActionRecord :=
  {| rec_time := now_record d;
     rec_type := action_type;
     rec_delay := final_delay_of action_type d self |}.

(** Every record appended by a sequence of calls, oldest first: the
    full audit log, of which [action_history] keeps a window. *)
Fixpoint all_records (calls : list (string * DelayDraws)) (self : t)
    : list ActionRecord :=
  match calls with
  | [] => []
  | (action_type, d) :: calls' =>
      appended_record action_type d self
      :: all_records calls' (snd (get_delay cfg action_type d self))
  end.

End GetDelayValues.

(** The eviction step of [get_delay]. *)
Definition evict_oldest (h : list ActionRecord) : list ActionRecord :=
  if (100 <? Z.of_nat (length h))%Z then drop 1 h else h.

(** The largest finite binary64 number, [(2^53 - 1) * 2^971]: a Python
    [float] is finite when its magnitude does not exceed it. *)
Definition float_max : Q := inject_Z ((2 ^ 53 - 1) * 2 ^ 971).



(** The last [n] elements of a list. *)
Definition last_n {A} (n : nat) (l : list A) : list A :=
  drop (length l - n) l.

(** ** Concrete sessions and draws used in the examples below *)

(** Clock at 0, [random()] giving 0 for the base delay and 1/2 for the
    variance factor (which is then exactly 1). *)
Definition draws_at_zero : DelayDraws :=
  {| now_fatigue := 0; u_base := 0; u_variance := 0.5; now_record := 0 |}.

(** A session started at time 0 that has recorded [n] actions. *)
Definition pacer_with_count (n : Z) : t :=
  {| start_time := 0; action_count := n; last_break_time := 0;
     action_history := [] |}.

(** [SAFETY_CONFIG] when the environment sets [MIN_CLICK_DELAY=-2.0] and
    [MAX_CLICK_DELAY=-1.0]. *)
Definition negative_click_config : SafetyConfig := {|
  MAX_SESSION_DURATION := 14400;
  MIN_BREAK_DURATION := 600;
  BREAK_FREQUENCY := 3600;
  MIN_CLICK_DELAY := - 2.0;
  MAX_CLICK_DELAY := - 1.0;
  RANDOM_VARIANCE := 0.3;
  ENABLE_FATIGUE := true
|}.

(** Draws for [_get_break_duration], all in the middle of their range. *)
Definition break_draws_mid : BreakDraws :=
  {| u_micro := 0.5; u_short := 0.5; u_scheduled := 0.5; u_long := 0.5 |}.

(** [SAFETY_CONFIG] when the environment sets [ENABLE_FATIGUE=false]. *)
Definition no_fatigue_config : SafetyConfig := {|
  MAX_SESSION_DURATION := 14400;
  MIN_BREAK_DURATION := 600;
  BREAK_FREQUENCY := 3600;
  MIN_CLICK_DELAY := 0.5;
  MAX_CLICK_DELAY := 2.0;
  RANDOM_VARIANCE := 0.3;
  ENABLE_FATIGUE := false
|}.

(** The same draws as [draws_at_zero], ten hours later. *)
Definition draws_at_ten_hours : DelayDraws :=
  {| now_fatigue := 36000; u_base := 0; u_variance := 0.5;
     now_record := 36000 |}.

(** A page on which the element is shown and every call succeeds. *)
Definition page_ok : ClickPage :=
  {| is_displayed := Some true; perform_ok := true; click_ok := true |}.

(** Draws for [human_scroll]: 250 pixels when no amount is given, three
    steps, every pause at its mean. *)
Definition scroll_draws_mid : ScrollDraws :=
  {| k_amount := 150; k_steps := 1; g_pause := fun _ => 0 |}.

(** * Properties *)

(** ** Arithmetic of the primitives *)

(** Division by the constants of the source, as a multiplication, so that
    linear arithmetic applies. *)
Ltac qdiv_const :=
  unfold Qdiv in *;
  change (/ 1000000000) with (1 # 1000000000) in *;
  change (/ 10000) with (1 # 10000) in *;
  change (/ 3600) with (1 # 3600) in *;
  change (/ 1000) with (1 # 1000) in *;
  change (/ 6) with (1 # 6) in *;
  change (/ 2) with (1 # 2) in *.

Lemma Qltb_spec (x y : Q) : Qltb x y = true <-> x < y.
Proof.
  unfold Qltb. rewrite negb_true_iff.
  destruct (Qle_bool y x) eqn:E.
  - apply Qle_bool_iff in E. split; [discriminate | lra].
  - split; [intros _ | reflexivity].
    apply Qnot_le_lt. intros H. apply Qle_bool_iff in H. congruence.
Qed.

Lemma Qltb_false (x y : Q) : Qltb x y = false <-> y <= x.
Proof.
  destruct (Qltb x y) eqn:E.
  - apply Qltb_spec in E. split; [discriminate | lra].
  - split; [intros _ | reflexivity].
    apply Qnot_lt_le. intros H. apply Qltb_spec in H. congruence.
Qed.

Lemma Qgeb_spec (x y : Q) : Qgeb x y = true <-> y <= x.
Proof. unfold Qgeb. apply Qle_bool_iff. Qed.

Lemma Qgeb_false (x y : Q) : Qgeb x y = false <-> x < y.
Proof.
  unfold Qgeb. destruct (Qle_bool y x) eqn:E.
  - apply Qle_bool_iff in E. split; [discriminate | lra].
  - split; [intros _ | reflexivity].
    apply Qnot_le_lt. intros H. apply Qle_bool_iff in H. congruence.
Qed.

(** A draw of [random.uniform(a, b)] lies between [a] and [b]. *)
Lemma random_uniform_bounds (a b u : Q) :
  a <= b -> 0 <= u <= 1 ->
  a <= random_uniform a b u <= b.
Proof. unfold random_uniform. intros Hab [H0 H1]. split; nra. Qed.

(** With the bounds in the other order it lies between [b] and [a]. *)
Lemma random_uniform_bounds_inverted (a b u : Q) :
  b <= a -> 0 <= u <= 1 ->
  b <= random_uniform a b u <= a.
Proof. unfold random_uniform. intros Hab [H0 H1]. split; nra. Qed.

Lemma random_uniform_nonneg (a b u : Q) :
  0 <= a -> 0 <= b -> 0 <= u <= 1 -> 0 <= random_uniform a b u.
Proof. unfold random_uniform. intros Ha Hb [H0 H1]. nra. Qed.

Lemma np_clip_bounds (x lo hi : Q) :
  lo <= hi -> lo <= np_clip x lo hi <= hi.
Proof.
  intros H. unfold np_clip. split.
  - apply Q.min_glb; [apply Q.le_max_r | exact H].
  - apply Q.le_min_r.
Qed.

(** ** The fatigue curve *)

Lemma time_component_bounds (t : Q) :
  0 <= t -> 1 <= Spec.time_component t <= 1.25.
Proof.
  intros H. unfold Spec.time_component. split.
  - apply Q.min_glb; lra.
  - apply Q.le_min_l.
Qed.

Lemma count_component_bounds (n : Z) :
  1 <= Spec.count_component n <= 1.1.
Proof.
  unfold Spec.count_component. destruct (Z.ltb_spec 500 n) as [H|H].
  - assert (0 <= inject_Z (n - 500)) as H0.
    { change 0 with (inject_Z 0). rewrite <- Zle_Qle. lia. }
    generalize dependent (inject_Z (n - 500)). intros k Hk.
    qdiv_const. split.
    + apply Q.min_glb; lra.
    + apply Q.le_min_l.
  - lra.
Qed.

Lemma count_component_mono (n m : Z) :
  (n <= m)%Z -> Spec.count_component n <= Spec.count_component m.
Proof.
  intros Hnm. pose proof (count_component_bounds m) as [Hm _].
  unfold Spec.count_component in *.
  destruct (Z.ltb_spec 500 n) as [Hn|Hn]; [| destruct (500 <? m)%Z; lra].
  destruct (Z.ltb_spec 500 m) as [Hm'|Hm']; [| lia].
  assert (inject_Z (n - 500) <= inject_Z (m - 500)) as H0.
  { rewrite <- Zle_Qle. lia. }
  generalize dependent (inject_Z (m - 500)).
  generalize dependent (inject_Z (n - 500)). intros kn km Hm Hk.
  qdiv_const. apply Q.min_glb.
  - apply Q.le_min_l.
  - eapply Qle_trans; [apply Q.le_min_r |]. lra.
Qed.

(** Running a method: unfold the plumbing of the state monad. *)
Ltac run_method :=
  unfold mbind, M_bind, mret, M_ret, gets, modify; cbn [fst snd].

(** [_calculate_fatigue] computes the specified multiplier of the elapsed
    hours and of the number of recorded actions. *)
Lemma calculate_fatigue_eq (cfg : SafetyConfig) (now : Q) (self : t) :
  fst (_calculate_fatigue cfg now self)
  == Spec.fatigue_multiplier (ENABLE_FATIGUE cfg)
       ((now - start_time self) / 3600) (action_count self).
Proof.
  unfold _calculate_fatigue, Spec.fatigue_multiplier, Spec.time_component,
    Spec.count_component, Py.min.
  destruct (ENABLE_FATIGUE cfg); cbn [negb]; run_method; [| reflexivity].
  assert (1.0 + (now - start_time self) / 3600 * 0.05
          == 1.0 + 0.05 * ((now - start_time self) / 3600)) as E by ring.
  destruct (500 <? action_count self)%Z; cbn [fst]; rewrite E.
  - reflexivity.
  - ring.
Qed.

Lemma calculate_fatigue_frame (cfg : SafetyConfig) (now : Q) (self : t) :
  snd (_calculate_fatigue cfg now self) = self.
Proof.
  unfold _calculate_fatigue.
  destruct (ENABLE_FATIGUE cfg); cbn [negb]; run_method; [| reflexivity].
  destruct (500 <? action_count self)%Z; reflexivity.
Qed.

Lemma fatigue_multiplier_bounds (enabled : bool) (t_hours : Q) (n : Z) :
  0 <= t_hours ->
  1 <= Spec.fatigue_multiplier enabled t_hours n <= 1.375.
Proof.
  intros Ht. unfold Spec.fatigue_multiplier. destruct enabled; [| lra].
  pose proof (time_component_bounds t_hours Ht) as [? ?].
  pose proof (count_component_bounds n) as [? ?].
  split; nra.
Qed.

Lemma fatigue_multiplier_mono (enabled : bool) (t_hours : Q) (n m : Z) :
  0 <= t_hours -> (n <= m)%Z ->
  Spec.fatigue_multiplier enabled t_hours n
  <= Spec.fatigue_multiplier enabled t_hours m.
Proof.
  intros Ht Hnm. unfold Spec.fatigue_multiplier. destruct enabled; [| lra].
  pose proof (time_component_bounds t_hours Ht) as [? ?].
  pose proof (count_component_mono n m Hnm).
  nra.
Qed.

#[global] Instance time_component_proper :
  Proper (Qeq ==> Qeq) Spec.time_component.
Proof.
  intros x y E. unfold Spec.time_component.
  apply Q.min_compat; [reflexivity | rewrite E; reflexivity].
Qed.

Lemma elapsed_hours_nonneg (now start : Q) :
  start <= now -> 0 <= (now - start) / 3600.
Proof. intros H. qdiv_const. lra. Qed.

Lemma time_component_at_zero : Spec.time_component 0 == 1.0.
Proof. reflexivity. Qed.

Lemma time_component_linear (t : Q) :
  0 <= t <= 5 -> Spec.time_component t == 1.0 + 0.05 * t.
Proof.
  intros [H0 H5]. unfold Spec.time_component.
  destruct (Q.min_spec 1.25 (1.0 + 0.05 * t)) as [[Hlt E]|[Hle E]];
    rewrite E; lra.
Qed.

Lemma time_component_capped (t : Q) :
  5 <= t -> Spec.time_component t == 1.25.
Proof.
  intros H5. unfold Spec.time_component.
  destruct (Q.min_spec 1.25 (1.0 + 0.05 * t)) as [[Hlt E]|[Hle E]];
    rewrite E; lra.
Qed.

(** The rounded operations agree at 0 h, 2 h, 5 h and beyond, and the
    product of the two caps is exactly 1.375. *)
Lemma time_fatigue_binary64_points :
  PrimFloat.eqb (Binary64.time_fatigue 0) Binary64.one = true
  /\ PrimFloat.eqb (Binary64.time_fatigue 7200) Binary64.one_point_one
     = true
  /\ PrimFloat.eqb (Binary64.time_fatigue 18000)
       Binary64.one_point_two_five = true
  /\ PrimFloat.eqb (Binary64.time_fatigue 86400)
       Binary64.one_point_two_five = true
  /\ PrimFloat.eqb (Binary64.action_fatigue 1000) Binary64.one_point_one
     = true
  /\ PrimFloat.eqb
       (Binary64.time_fatigue 18000 * Binary64.action_fatigue 1000)%float
       Binary64.one_point_three_seven_five = true.
Proof. repeat split; vm_compute; reflexivity. Qed.

Lemma count_component_below_threshold (n : Z) :
  (n <= 500)%Z -> Spec.count_component n = 1.0.
Proof.
  intros H. unfold Spec.count_component.
  destruct (Z.ltb_spec 500 n); [lia | reflexivity].
Qed.

(** C5. The fatigue multiplier returned by [_calculate_fatigue] is a pure
    function of the elapsed time [now - start_time] and of [action_count]:
    with fatigue enabled it is the product of the time component
    [min(1.25, 1.0 + 0.05 * t_hours)] and of the count component
    ([min(1.1, 1.0 + (n - 500) / 10000)] for [n > 500], 1.0 otherwise); the
    time component is 1.0 at 0 hours, 1.25 from 5 hours on, linear in
    between and 1.10 at 2 hours; the multiplier lies in [1.0, 1.375]; it is
    1.0 when fatigue is disabled; and the call leaves the object as it
    was. *)
Theorem fatigue_multiplier_contract
    (cfg : SafetyConfig) (now : Q) (self : t) :
  let t_hours := (now - start_time self) / 3600 in
  let n := action_count self in
  let f := fst (_calculate_fatigue cfg now self) in
  (ENABLE_FATIGUE cfg = true ->
     f == Qmin 1.25 (1.0 + 0.05 * t_hours)
          * (if (500 <? n)%Z
             then Qmin 1.1 (1.0 + inject_Z (n - 500) / 10000)
             else 1.0))
  /\ (ENABLE_FATIGUE cfg = false -> f == 1.0)
  /\ f == Spec.fatigue_multiplier (ENABLE_FATIGUE cfg) t_hours n
  /\ (forall now' self',
        now' - start_time self' == now - start_time self ->
        action_count self' = n ->
        fst (_calculate_fatigue cfg now' self') == f)
  /\ snd (_calculate_fatigue cfg now self) = self
  /\ (start_time self <= now -> 1 <= f <= 1.375)
  /\ (ENABLE_FATIGUE cfg = true -> (n <= 500)%Z ->
        (t_hours == 0 -> f == 1.0)
        /\ (5 <= t_hours -> f == 1.25)
        /\ (0 <= t_hours <= 5 -> f == 1.0 + 0.05 * t_hours)
        /\ (t_hours == 2 -> f == 1.10)).
Proof.
  intros t_hours n f.
  pose proof (calculate_fatigue_eq cfg now self) as Hf.
  fold t_hours n f in Hf.
  repeat apply conj.
  - intros En. rewrite En in Hf. exact Hf.
  - intros En. rewrite En in Hf. exact Hf.
  - exact Hf.
  - intros now' self' Ht Hn.
    rewrite (calculate_fatigue_eq cfg now' self'), Hf, Hn.
    unfold Spec.fatigue_multiplier. destruct (ENABLE_FATIGUE cfg);
      [| reflexivity].
    apply Qmult_comp; [| reflexivity].
    apply time_component_proper. unfold t_hours. rewrite Ht. reflexivity.
  - apply calculate_fatigue_frame.
  - intros Hs. rewrite Hf. apply fatigue_multiplier_bounds.
    apply elapsed_hours_nonneg, Hs.
  - intros En Hn. rewrite En in Hf. unfold Spec.fatigue_multiplier in Hf.
    rewrite (count_component_below_threshold n Hn) in Hf.
    assert (f == Spec.time_component t_hours) as Hf' by (rewrite Hf; ring).
    repeat apply conj.
    + intros Ht. rewrite Hf', Ht. reflexivity.
    + intros Ht. rewrite Hf'. apply time_component_capped, Ht.
    + intros Ht. rewrite Hf'. apply time_component_linear, Ht.
    + intros Ht. rewrite Hf', Ht. reflexivity.
Qed.

(** The default configuration, two hours into a fresh session. *)
Lemma fatigue_multiplier_contract_witness :
  let f := fst (_calculate_fatigue SAFETY_CONFIG 7200 (init 0 0)) in
  f == 1.10 /\ 1 <= f <= 1.375.
Proof.
  destruct (fatigue_multiplier_contract SAFETY_CONFIG 7200 (init 0 0))
    as (_ & _ & _ & _ & _ & Hb & Hp).
  split.
  - apply Hp; [reflexivity | vm_compute; discriminate | reflexivity].
  - apply Hb. vm_compute. discriminate.
Defined.

(** ** [get_delay] *)

(** The value and the state that a call of [get_delay] produces. *)
Lemma get_delay_run (cfg : SafetyConfig) (action_type : string)
    (d : DelayDraws) (self : t) :
  get_delay cfg action_type d self
  = (final_delay_of cfg action_type d self,
     {| start_time := start_time self;
        action_count := action_count self + 1;
        last_break_time := last_break_time self;
        action_history :=
          evict_oldest
            (action_history self ++ [appended_record cfg action_type d self])
     |}).
Proof.
  unfold appended_record, final_delay_of, get_delay, base_delay_of,
    variance_factor, evict_oldest.
  destruct (default (0.3, 0.8) (delay_ranges cfg !! action_type))
    as [min_delay max_delay].
  run_method.
  pose proof (calculate_fatigue_frame cfg (now_fatigue d) self) as Hfr.
  destruct (_calculate_fatigue cfg (now_fatigue d) self) as [f self'].
  cbn [fst snd] in *. subst self'.
  unfold set_action_count, set_action_history. cbn.
  destruct (100 <? _)%Z; reflexivity.
Qed.

Lemma get_delay_value (cfg : SafetyConfig) (action_type : string)
    (d : DelayDraws) (self : t) :
  fst (get_delay cfg action_type d self)
  = final_delay_of cfg action_type d self.
Proof. rewrite get_delay_run. reflexivity. Qed.

Lemma get_delay_action_count (cfg : SafetyConfig) (action_type : string)
    (d : DelayDraws) (self : t) :
  action_count (snd (get_delay cfg action_type d self))
  = (action_count self + 1)%Z.
Proof. rewrite get_delay_run. reflexivity. Qed.

Lemma get_delay_start_time (cfg : SafetyConfig) (action_type : string)
    (d : DelayDraws) (self : t) :
  start_time (snd (get_delay cfg action_type d self)) = start_time self.
Proof. rewrite get_delay_run. reflexivity. Qed.

(** C1 (amended). [get_delay] computes the fatigue multiplier before it
    increments [action_count]: the delay of a call is the base delay times
    the multiplier for the count the call finds (one less than the count
    it leaves) times the variance factor.  For two consecutive calls at
    the same clock reading, the second call's multiplier is at least the
    first call's: the 501st call of a session uses the multiplier for 500
    recorded actions, the 500th the one for 499. *)
Theorem get_delay_fatigue_before_increment
    (cfg : SafetyConfig) (ty1 ty2 : string) (d1 d2 : DelayDraws) (self : t) :
  start_time self <= now_fatigue d1 ->
  now_fatigue d2 == now_fatigue d1 ->
  let r1 := get_delay cfg ty1 d1 self in
  let r2 := get_delay cfg ty2 d2 (snd r1) in
  let t_hours := (now_fatigue d1 - start_time self) / 3600 in
  let f1 := fst (_calculate_fatigue cfg (now_fatigue d1) self) in
  let f2 := fst (_calculate_fatigue cfg (now_fatigue d2) (snd r1)) in
  action_count (snd r1) = (action_count self + 1)%Z
  /\ fst r1 = base_delay_of cfg ty1 d1 * f1 * variance_factor cfg d1
  /\ fst r2 = base_delay_of cfg ty2 d2 * f2 * variance_factor cfg d2
  /\ f1 == Spec.fatigue_multiplier (ENABLE_FATIGUE cfg) t_hours
             (action_count self)
  /\ f2 == Spec.fatigue_multiplier (ENABLE_FATIGUE cfg) t_hours
             (action_count self + 1)
  /\ f1 <= f2.
Proof.
  intros Hstart Hnow r1 r2 t_hours f1 f2.
  assert (f1 == Spec.fatigue_multiplier (ENABLE_FATIGUE cfg) t_hours
                  (action_count self)) as E1
    by apply calculate_fatigue_eq.
  assert (f2 == Spec.fatigue_multiplier (ENABLE_FATIGUE cfg) t_hours
                  (action_count self + 1)) as E2.
  { unfold f2. rewrite calculate_fatigue_eq. unfold r1.
    rewrite get_delay_action_count, get_delay_start_time.
    unfold Spec.fatigue_multiplier. destruct (ENABLE_FATIGUE cfg);
      [| reflexivity].
    apply Qmult_comp; [| reflexivity].
    apply time_component_proper. unfold t_hours. rewrite Hnow.
    reflexivity. }
  repeat apply conj.
  - apply get_delay_action_count.
  - apply get_delay_value.
  - apply get_delay_value.
  - exact E1.
  - exact E2.
  - rewrite E1, E2. apply fatigue_multiplier_mono; [| lia].
    apply elapsed_hours_nonneg, Hstart.
Qed.

(** The 500th and the 501st call of a session, at the same instant. *)
Lemma get_delay_fatigue_before_increment_witness :
  let r500 := get_delay SAFETY_CONFIG "battle" draws_at_zero
                (pacer_with_count 499) in
  action_count (snd r500) = 500%Z
  /\ fst (_calculate_fatigue SAFETY_CONFIG 0 (pacer_with_count 499))
     <= fst (_calculate_fatigue SAFETY_CONFIG 0 (snd r500)).
Proof.
  destruct (get_delay_fatigue_before_increment SAFETY_CONFIG
              "battle" "battle" draws_at_zero draws_at_zero
              (pacer_with_count 499))
    as (Hn & _ & _ & _ & _ & Hle).
  - vm_compute. discriminate.
  - reflexivity.
  - split; [exact Hn | exact Hle].
Defined.

(** The claim as the specification states it fails: on the call that
    takes [action_count] from 500 to 501 the delay is not the one that the
    multiplier for 501 actions would give. *)
Lemma get_delay_fatigue_not_post_increment :
  let r := get_delay SAFETY_CONFIG "battle" draws_at_zero
             (pacer_with_count 500) in
  action_count (snd r) = 501%Z
  /\ ~ fst r == base_delay_of SAFETY_CONFIG "battle" draws_at_zero
               * fst (_calculate_fatigue SAFETY_CONFIG
                        (now_fatigue draws_at_zero) (snd r))
               * variance_factor SAFETY_CONFIG draws_at_zero.
Proof.
  split.
  - reflexivity.
  - vm_compute. discriminate.
Qed.

(** Every range of [delay_ranges], and the default range, is non-negative
    as soon as the configured click range is. *)
Lemma delay_range_nonneg (cfg : SafetyConfig) (action_type : string) :
  0 <= MIN_CLICK_DELAY cfg -> 0 <= MAX_CLICK_DELAY cfg ->
  let r := default (0.3, 0.8) (delay_ranges cfg !! action_type) in
  0 <= fst r /\ 0 <= snd r.
Proof.
  intros Hmin Hmax.
  destruct (delay_ranges cfg !! action_type) as [r|] eqn:E; cbn.
  - apply elem_of_list_to_map_2 in E.
    repeat (apply elem_of_cons in E as [E|E];
            [injection E as _ ->; cbn; split; (assumption || lra) |]).
    inversion E.
  - split; lra.
Qed.

Lemma base_delay_nonneg (cfg : SafetyConfig) (action_type : string)
    (d : DelayDraws) :
  0 <= MIN_CLICK_DELAY cfg -> 0 <= MAX_CLICK_DELAY cfg ->
  0 <= u_base d <= 1 ->
  0 <= base_delay_of cfg action_type d.
Proof.
  intros Hmin Hmax Hu. unfold base_delay_of.
  pose proof (delay_range_nonneg cfg action_type Hmin Hmax) as H.
  destruct (default (0.3, 0.8) (delay_ranges cfg !! action_type))
    as [lo hi].
  cbn in H. destruct H. apply random_uniform_nonneg; assumption.
Qed.

Lemma variance_factor_nonneg (cfg : SafetyConfig) (d : DelayDraws) :
  0 <= RANDOM_VARIANCE cfg <= 1 -> 0 <= u_variance d <= 1 ->
  0 <= variance_factor cfg d.
Proof.
  intros [Hv0 Hv1] Hu. unfold variance_factor.
  apply random_uniform_nonneg; [lra | lra | exact Hu].
Qed.

(** A draw of [random.uniform(a, b)] is at most the larger bound, in
    whichever order the bounds come. *)
Lemma random_uniform_le_max (a b u : Q) :
  0 <= u <= 1 -> random_uniform a b u <= Qmax a b.
Proof.
  intros Hu. destruct (Qlt_le_dec b a) as [Hinv|Hord].
  - rewrite Q.max_l by lra.
    apply random_uniform_bounds_inverted; [lra | exact Hu].
  - rewrite Q.max_r by lra. apply random_uniform_bounds; assumption.
Qed.

(** C7 (amended). [get_delay] has no failing path and applies no floor:
    it returns the plain product of base delay, fatigue and variance
    factor.  That product is non-negative and finite -- at most
    [max(min_delay, max_delay) * 1.375 * (1 + variance)], [(min_delay,
    max_delay)] being the range of the category -- whenever the configured
    click range is finite and non-negative, that bound is within the range
    of a float, the variance fraction lies in [0, 1] (it is 0.3), the
    clock has not run backwards since the session started, and the values
    of [random()] lie in [0, 1] -- for every action category, known or
    unknown, and every action count. *)
Theorem get_delay_nonneg
    (cfg : SafetyConfig) (action_type : string) (d : DelayDraws) (self : t) :
  0 <= MIN_CLICK_DELAY cfg -> 0 <= MAX_CLICK_DELAY cfg ->
  0 <= RANDOM_VARIANCE cfg <= 1 ->
  0 <= u_base d <= 1 -> 0 <= u_variance d <= 1 ->
  start_time self <= now_fatigue d ->
  let r := default (0.3, 0.8) (delay_ranges cfg !! action_type) in
  let bound := Qmax (fst r) (snd r) * 1.375 * (1 + RANDOM_VARIANCE cfg) in
  bound <= float_max ->
  exists delay self',
    get_delay cfg action_type d self = (delay, self')
    /\ delay = base_delay_of cfg action_type d
               * fst (_calculate_fatigue cfg (now_fatigue d) self)
               * variance_factor cfg d
    /\ 0 <= delay
    /\ delay <= bound
    /\ delay <= float_max.
Proof.
  intros Hmin Hmax Hv Hu1 Hu2 Hstart r bound Hfin.
  rewrite get_delay_run. eexists _, _. split; [reflexivity |].
  split; [reflexivity |]. unfold final_delay_of.
  pose proof (base_delay_nonneg cfg action_type d Hmin Hmax Hu1) as Hb0.
  pose proof (variance_factor_nonneg cfg d Hv Hu2) as Hv0.
  assert (1 <= fst (_calculate_fatigue cfg (now_fatigue d) self) <= 1.375)
    as [Hf1 Hf2].
  { rewrite calculate_fatigue_eq.
    apply fatigue_multiplier_bounds, elapsed_hours_nonneg, Hstart. }
  assert (base_delay_of cfg action_type d <= Qmax (fst r) (snd r)) as Hb1.
  { unfold base_delay_of. fold r. destruct r as [lo hi]. cbn [fst snd].
    apply random_uniform_le_max, Hu1. }
  assert (variance_factor cfg d <= 1 + RANDOM_VARIANCE cfg) as Hv1.
  { unfold variance_factor.
    apply random_uniform_bounds; [lra | exact Hu2]. }
  assert (base_delay_of cfg action_type d
          * fst (_calculate_fatigue cfg (now_fatigue d) self)
          * variance_factor cfg d <= bound) as Hle.
  { unfold bound. clear Hfin bound. destruct Hv as [Hv00 Hv01].
    generalize dependent (fst (_calculate_fatigue cfg (now_fatigue d) self)).
    generalize dependent (variance_factor cfg d).
    generalize dependent (base_delay_of cfg action_type d).
    generalize dependent (RANDOM_VARIANCE cfg).
    generalize dependent (Qmax (fst r) (snd r)).
    intros m v Hv00 Hv01 b Hb0 Hb1 vf Hvf0 Hvf1 f Hf1 Hf2.
    assert (b * f <= m * 1.375) by nra.
    assert (0 <= b * f) by nra.
    nra. }
  repeat apply conj.
  - apply Qmult_le_0_compat; [apply Qmult_le_0_compat |]; lra.
  - exact Hle.
  - eapply Qle_trans; [exact Hle | exact Hfin].
Qed.

(** An unknown category on a fresh session with the default table: at
    most [0.8 * 1.375 * 1.3] seconds. *)
Lemma get_delay_nonneg_witness :
  exists delay self',
    get_delay SAFETY_CONFIG "unknown" draws_at_zero (init 0 0)
    = (delay, self')
    /\ 0 <= delay <= 1.43.
Proof.
  destruct (get_delay_nonneg SAFETY_CONFIG "unknown" draws_at_zero
              (init 0 0))
    as (delay & self' & E & _ & H0 & Hb & _).
  - vm_compute. discriminate.
  - vm_compute. discriminate.
  - vm_compute. intuition discriminate.
  - vm_compute. intuition discriminate.
  - vm_compute. intuition discriminate.
  - vm_compute. discriminate.
  - vm_compute. discriminate.
  - exists delay, self'. split; [exact E |]. split; [exact H0 |].
    eapply Qle_trans; [exact Hb |]. vm_compute. discriminate.
Defined.

(** No floor at 0: with a negative click range from the environment the
    delay of a click is negative. *)
Lemma get_delay_negative_click_range :
  ~ 0 <= fst (get_delay negative_click_config "click" draws_at_zero
                (init 0 0)).
Proof. vm_compute. intros H. apply H. reflexivity. Qed.

(** ** The history window *)

Lemma last_n_short {A} (n : nat) (l : list A) :
  (length l <= n)%nat -> last_n n l = l.
Proof.
  intros H. unfold last_n. replace (length l - n)%nat with 0%nat by lia.
  reflexivity.
Qed.

Lemma length_last_n {A} (n : nat) (l : list A) :
  length (last_n n l) = Nat.min (length l) n.
Proof. unfold last_n. rewrite length_drop. lia. Qed.

Lemma length_evict_oldest (h : list ActionRecord) (r : ActionRecord) :
  (length h <= 100)%nat ->
  (length (evict_oldest (h ++ [r])) <= 100)%nat.
Proof.
  intros H. unfold evict_oldest.
  destruct (Z.ltb_spec 100 (Z.of_nat (length (h ++ [r])))) as [Hlt|Hge].
  - rewrite length_drop, length_app. cbn. lia.
  - lia.
Qed.

(** Dropping the oldest entry of a full window does not change which
    entries are the 100 most recent once more entries follow. *)
Lemma last_n_evict_oldest (h m : list ActionRecord) (r : ActionRecord) :
  last_n 100 (evict_oldest (h ++ [r]) ++ m) = last_n 100 ((h ++ [r]) ++ m).
Proof.
  unfold evict_oldest.
  destruct (Z.ltb_spec 100 (Z.of_nat (length (h ++ [r])))) as [Hlt|Hge];
    [| reflexivity].
  assert (1 <= length (h ++ [r]))%nat as H1 by lia.
  rewrite <- (drop_app_le (h ++ [r]) m 1 H1).
  unfold last_n. rewrite drop_drop, length_drop.
  f_equal. rewrite length_app. lia.
Qed.

Lemma length_all_records (cfg : SafetyConfig)
    (calls : list (string * DelayDraws)) :
  forall self : t, length (all_records cfg calls self) = length calls.
Proof.
  induction calls as [| [action_type d] calls IH]; intros self;
    [reflexivity |].
  cbn. rewrite IH. reflexivity.
Qed.

(** The state after a sequence of calls, from any state whose history
    fits the window. *)
Lemma get_delays_run (cfg : SafetyConfig)
    (calls : list (string * DelayDraws)) :
  forall self : t,
    (length (action_history self) <= 100)%nat ->
    let self' := snd (get_delays cfg calls self) in
    action_count self' = (action_count self + Z.of_nat (length calls))%Z
    /\ action_history self'
       = last_n 100 (action_history self ++ all_records cfg calls self).
Proof.
  induction calls as [| [action_type d] calls IH]; intros self Hlen.
  - cbn. split; [lia |]. rewrite app_nil_r, last_n_short; [reflexivity | lia].
  - cbn [get_delays all_records]. run_method.
    rewrite get_delay_run. cbn [fst snd].
    set (self1 := {| start_time := start_time self;
                     action_count := action_count self + 1;
                     last_break_time := last_break_time self;
                     action_history :=
                       evict_oldest
                         (action_history self
                          ++ [appended_record cfg action_type d self]) |}).
    specialize (IH self1 (length_evict_oldest _ _ Hlen)).
    destruct (get_delays cfg calls self1) as [xs self2].
    cbn [fst snd] in *. destruct IH as [IHn IHh]. split.
    + rewrite IHn. cbn. lia.
    + rewrite IHh. cbn [action_history self1].
      rewrite last_n_evict_oldest, <- app_assoc. reflexivity.
Qed.

(** C6. After any number of calls of [get_delay] on a new object,
    [action_count] is the number of calls and [action_history] is the
    window of the most recent 100 records appended: its length is
    [min(action_count, 100)], never more than 100 (exactly 100 after 1000
    calls), and it holds the last 100 records of the full log in order,
    the oldest having been evicted when the 101st was appended. *)
Theorem action_history_window
    (cfg : SafetyConfig) (calls : list (string * DelayDraws))
    (now1 now2 : Q) :
  let self := snd (get_delays cfg calls (init now1 now2)) in
  let log := all_records cfg calls (init now1 now2) in
  action_count self = Z.of_nat (length calls)
  /\ length log = length calls
  /\ Z.of_nat (length (action_history self))
     = Z.min (action_count self) 100
  /\ (length (action_history self) <= 100)%nat
  /\ action_history self = drop (length calls - 100) log
  /\ (length calls = 1000%nat ->
      length (action_history self) = 100%nat).
Proof.
  intros self log.
  destruct (get_delays_run cfg calls (init now1 now2)) as [Hn Hh];
    [cbn; lia |].
  fold self in Hn, Hh.
  change (action_count (init now1 now2)) with 0%Z in Hn.
  change (action_history (init now1 now2)) with (@nil ActionRecord) in Hh.
  rewrite app_nil_l in Hh. fold log in Hh.
  assert (length log = length calls) as Hlog
    by apply length_all_records.
  assert (length (action_history self) = Nat.min (length calls) 100) as Hl.
  { rewrite Hh, length_last_n, Hlog. reflexivity. }
  repeat apply conj.
  - lia.
  - exact Hlog.
  - rewrite Hl, Hn. lia.
  - rewrite Hl. lia.
  - rewrite Hh. unfold last_n. rewrite Hlog. reflexivity.
  - intros H1000. rewrite Hl, H1000. reflexivity.
Qed.

(** One thousand clicks on a new object. *)
Lemma action_history_window_witness :
  length (action_history
            (snd (get_delays SAFETY_CONFIG
                    (replicate 1000 ("click", draws_at_zero))
                    (init 0 0))))
  = 100%nat.
Proof.
  apply (action_history_window SAFETY_CONFIG
           (replicate 1000 ("click", draws_at_zero)) 0 0).
  apply length_replicate.
Defined.

(** ** Breaks *)

Lemma get_break_duration_scheduled (d : BreakDraws) (self : t) :
  _get_break_duration "scheduled" d self
  = (random_uniform 600 1200 (u_scheduled d), self).
Proof. reflexivity. Qed.

Lemma get_break_duration_micro (d : BreakDraws) (self : t) :
  _get_break_duration "micro" d self
  = (random_uniform 30 120 (u_micro d), self).
Proof. reflexivity. Qed.

Lemma get_break_duration_long (d : BreakDraws) (self : t) :
  _get_break_duration "long" d self
  = (random_uniform 1800 3600 (u_long d), self).
Proof. reflexivity. Qed.

(** The three tests of [should_take_break], in the order of the source. *)
Lemma should_take_break_run (cfg : SafetyConfig) (now coin : Q)
    (d : BreakDraws) (self : t) :
  should_take_break cfg now coin d self
  = (if Qgeb (now - last_break_time self) (inject_Z (BREAK_FREQUENCY cfg))
     then (true, random_uniform 600 1200 (u_scheduled d))
     else if Qltb coin 0.001
     then (true, random_uniform 30 120 (u_micro d))
     else if Qgeb (now - start_time self)
               (inject_Z (MAX_SESSION_DURATION cfg))
     then (true, random_uniform 1800 3600 (u_long d))
     else (false, 0),
     self).
Proof.
  unfold should_take_break. run_method.
  destruct (Qgeb (now - last_break_time self) _).
  { run_method. rewrite get_break_duration_scheduled. reflexivity. }
  destruct (Qltb coin 0.001).
  { run_method. rewrite get_break_duration_micro. reflexivity. }
  run_method.
  destruct (Qgeb (now - start_time self) _).
  { run_method. rewrite get_break_duration_long. reflexivity. }
  reflexivity.
Qed.

(** C4. [should_take_break] tests, in this order and returning at the
    first that holds: the scheduled break (time since the last break at
    least [BREAK_FREQUENCY]; duration uniform in [600, 1200]), the
    micro-break ([random()] below 0.001; duration uniform in [30, 120]) and
    the session cap (elapsed time at least [MAX_SESSION_DURATION];
    duration uniform in [1800, 3600]); otherwise it returns [(False, 0)].
    A session beyond both the break frequency and the session cap gets
    the scheduled break. *)
Theorem should_take_break_order
    (cfg : SafetyConfig) (now coin : Q) (d : BreakDraws) (self : t) :
  0 <= u_scheduled d <= 1 -> 0 <= u_micro d <= 1 -> 0 <= u_long d <= 1 ->
  let time_since_break := now - last_break_time self in
  let session_duration := now - start_time self in
  let frequency := inject_Z (BREAK_FREQUENCY cfg) in
  let cap := inject_Z (MAX_SESSION_DURATION cfg) in
  let res := fst (should_take_break cfg now coin d self) in
  (frequency <= time_since_break ->
     res = (true, random_uniform 600 1200 (u_scheduled d))
     /\ 600 <= snd res <= 1200)
  /\ (time_since_break < frequency -> coin < 0.001 ->
      res = (true, random_uniform 30 120 (u_micro d))
      /\ 30 <= snd res <= 120)
  /\ (time_since_break < frequency -> 0.001 <= coin ->
      cap <= session_duration ->
      res = (true, random_uniform 1800 3600 (u_long d))
      /\ 1800 <= snd res <= 3600)
  /\ (time_since_break < frequency -> 0.001 <= coin ->
      session_duration < cap ->
      res = (false, 0))
  /\ (frequency <= time_since_break -> cap <= session_duration ->
      res = (true, random_uniform 600 1200 (u_scheduled d))).
Proof.
  intros Hs Hm Hl time_since_break session_duration frequency cap res.
  unfold res. rewrite should_take_break_run. cbn [fst].
  fold time_since_break session_duration frequency cap.
  pose proof (Qgeb_spec time_since_break frequency) as G1.
  pose proof (Qgeb_false time_since_break frequency) as G1'.
  pose proof (Qltb_spec coin 0.001) as G2.
  pose proof (Qltb_false coin 0.001) as G2'.
  pose proof (Qgeb_spec session_duration cap) as G3.
  pose proof (Qgeb_false session_duration cap) as G3'.
  repeat apply conj.
  - intros H. apply G1 in H. rewrite H. split; [reflexivity |].
    apply random_uniform_bounds; [lra | exact Hs].
  - intros H1 H2. apply G1' in H1. apply G2 in H2. rewrite H1, H2.
    split; [reflexivity |]. apply random_uniform_bounds; [lra | exact Hm].
  - intros H1 H2 H3. apply G1' in H1. apply G2' in H2. apply G3 in H3.
    rewrite H1, H2, H3.
    split; [reflexivity |]. apply random_uniform_bounds; [lra | exact Hl].
  - intros H1 H2 H3. apply G1' in H1. apply G2' in H2. apply G3' in H3.
    rewrite H1, H2, H3. reflexivity.
  - intros H _. apply G1 in H. rewrite H. reflexivity.
Qed.

(** A fresh object polled 20000 seconds later: past the break frequency
    (3600) and past the session cap (14400). *)
Lemma should_take_break_order_witness :
  let res := fst (should_take_break SAFETY_CONFIG 20000 0.5 break_draws_mid
                    (init 0 0)) in
  res = (true, random_uniform 600 1200 0.5) /\ 600 <= snd res <= 1200.
Proof.
  destruct (should_take_break_order SAFETY_CONFIG 20000 0.5 break_draws_mid
              (init 0 0))
    as (H1 & _ & _ & _ & _).
  - vm_compute. intuition discriminate.
  - vm_compute. intuition discriminate.
  - vm_compute. intuition discriminate.
  - apply H1. vm_compute. discriminate.
Defined.

(** C10. [should_take_break] leaves [start_time], [action_count],
    [last_break_time] and [action_history] as they were, whichever test
    holds. *)
Theorem should_take_break_frame
    (cfg : SafetyConfig) (now coin : Q) (d : BreakDraws) (self : t) :
  let self' := snd (should_take_break cfg now coin d self) in
  self' = self
  /\ start_time self' = start_time self
  /\ action_count self' = action_count self
  /\ last_break_time self' = last_break_time self
  /\ action_history self' = action_history self.
Proof.
  rewrite should_take_break_run. cbn. repeat split.
Qed.

(** ** [human_delay] *)

(** Running a static method: unfold the plumbing of the trace monad. *)
Ltac run_io :=
  unfold mbind, IO_bind, result_bind, mret, IO_ret, result_ret, lift,
    perform; cbn [fst snd].

(** A length within the 64-bit nanosecond count passes the first check of
    [time.sleep]. *)
Lemma time_sleep_in_range (seconds : Q) :
  sleep_ns_min / 1000000000 <= seconds <= sleep_limit ->
  Qltb sleep_ns_max (seconds * 1000000000)
  || Qltb (seconds * 1000000000) sleep_ns_min = false.
Proof.
  unfold sleep_limit, sleep_ns_max, sleep_ns_min. intros [Hlo Hhi].
  apply orb_false_iff. split; apply Qltb_false; qdiv_const; lra.
Qed.

Lemma time_sleep_run (seconds : Q) :
  0 <= seconds -> seconds <= sleep_limit ->
  time_sleep seconds = ([Sleep seconds], inr tt).
Proof.
  intros H Hlim. unfold time_sleep.
  rewrite time_sleep_in_range
    by (split; [unfold sleep_ns_min; qdiv_const; lra | exact Hlim]).
  apply Qltb_false in H. rewrite H. reflexivity.
Qed.

Lemma sleepable_ms_within_limit (ms : Q) :
  ms <= sleepable_ms -> ms / 1000 <= sleep_limit.
Proof.
  unfold sleepable_ms, sleep_limit, sleep_ns_max. intros H.
  qdiv_const. lra.
Qed.

Lemma sleepable_sec_within_limit (seconds : Q) :
  seconds <= sleepable_sec -> seconds <= sleep_limit.
Proof.
  unfold sleepable_sec, sleep_limit, sleep_ns_max. intros H.
  qdiv_const. lra.
Qed.

(** The pauses of the source, at most 200 ms, are within the limit. *)
Lemma short_sleep_within_limit (ms : Q) :
  ms <= 200 -> ms / 1000 <= sleep_limit.
Proof.
  intros H. apply sleepable_ms_within_limit. unfold sleepable_ms. lra.
Qed.

Lemma np_random_normal_run (loc scale g : Q) :
  0 <= scale -> np_random_normal loc scale g = inr (loc + scale * g).
Proof.
  intros H. unfold np_random_normal. apply Qltb_false in H. rewrite H.
  reflexivity.
Qed.

Lemma np_random_normal_negative_scale (loc scale g : Q) :
  scale < 0 ->
  np_random_normal loc scale g = inl (ValueError "scale < 0").
Proof.
  intros H. unfold np_random_normal. apply Qltb_spec in H. rewrite H.
  reflexivity.
Qed.

(** With ordered non-negative bounds the normal branch sleeps for the
    clamped sample and returns [None]. *)
Lemma human_delay_normal_run (min_ms max_ms g : Q) :
  0 <= min_ms -> min_ms <= max_ms -> max_ms / 1000 <= sleep_limit ->
  human_delay min_ms max_ms "normal" g
  = ([Sleep (np_clip ((min_ms + max_ms) / 2 + (max_ms - min_ms) / 6 * g)
               min_ms max_ms / 1000)],
     inr tt).
Proof.
  intros H0 Hle Hlim. unfold human_delay.
  destruct (decide ("normal" = "normal")) as [_|N]; [| congruence].
  rewrite np_random_normal_run by (qdiv_const; lra).
  pose proof (np_clip_bounds
                ((min_ms + max_ms) / 2 + (max_ms - min_ms) / 6 * g)
                min_ms max_ms Hle) as [Hlo Hhi].
  run_io. rewrite time_sleep_run; [reflexivity | |]; qdiv_const; lra.
Qed.

(** C9 (amended). For [0 <= min_ms <= max_ms], with [max_ms] a length
    that [time.sleep] accepts (at most [sleepable_ms], 9e12 ms),
    [human_delay] with the normal shape draws from the normal distribution
    of mean [(min_ms + max_ms) / 2] and standard deviation
    [(max_ms - min_ms) / 6], clamps the sample into [min_ms, max_ms], and
    then sleeps itself for that many milliseconds; it hands nothing back
    to the caller (it returns [None]). *)
Theorem human_delay_normal_sleeps_within_bounds (min_ms max_ms g : Q) :
  0 <= min_ms -> min_ms <= max_ms -> max_ms <= sleepable_ms ->
  exists delay_ms : Q,
    delay_ms = np_clip ((min_ms + max_ms) / 2 + (max_ms - min_ms) / 6 * g)
                 min_ms max_ms
    /\ min_ms <= delay_ms <= max_ms
    /\ effects (human_delay min_ms max_ms "normal" g)
       = [Sleep (delay_ms / 1000)]
    /\ outcome (human_delay min_ms max_ms "normal" g) = inr tt.
Proof.
  intros H0 Hle Hlim. eexists. split; [reflexivity |].
  split; [apply np_clip_bounds, Hle |].
  rewrite human_delay_normal_run
    by (assumption || apply sleepable_ms_within_limit, Hlim).
  split; reflexivity.
Qed.

(** The default bounds of [human_delay], 100 ms and 500 ms, with a sample
    three standard deviations above the mean. *)
Lemma human_delay_normal_sleeps_within_bounds_witness :
  exists delay_ms : Q,
    100 <= delay_ms <= 500
    /\ effects (human_delay 100 500 "normal" 3) = [Sleep (delay_ms / 1000)].
Proof.
  destruct (human_delay_normal_sleeps_within_bounds 100 500 3)
    as (delay_ms & _ & Hb & He & _).
  - vm_compute. discriminate.
  - vm_compute. discriminate.
  - vm_compute. discriminate.
  - exists delay_ms. split; assumption.
Defined.

(** The claim as the specification states it fails: the call does not
    hand a duration back, it sleeps (here for 0.3 s) and returns [None]. *)
Lemma human_delay_sleeps_itself :
  ~ effects (human_delay 100 500 "normal" 0) = []
  /\ exists s, human_delay 100 500 "normal" 0 = ([Sleep s], inr tt)
               /\ s == 0.3.
Proof.
  split.
  - vm_compute. discriminate.
  - eexists. split; [vm_compute; reflexivity | reflexivity].
Qed.




(** ** [human_click] *)

(** What the clamp of [human_click] guarantees: the lower bound is
    [(-width) // 2 + 5], one below [-(width // 2 - 5)] for an odd width. *)
Lemma human_click_offset_bounds (variance width height : Z) (gx gy : Q) :
  (0 <= variance)%Z -> (10 <= width)%Z -> (10 <= height)%Z ->
  exists dx dy : Z,
    human_click_offset variance width height gx gy = inr (dx, dy)
    /\ ((- width) / 2 + 5 <= dx <= width / 2 - 5)%Z
    /\ ((- height) / 2 + 5 <= dy <= height / 2 - 5)%Z.
Proof.
  intros Hv Hw Hh. unfold human_click_offset.
  assert (forall m : Z, (0 <= m)%Z -> 0 <= inject_Z m / 2) as Hscale.
  { intros m Hm. assert (0 <= inject_Z m) as H0.
    { change 0 with (inject_Z 0). rewrite <- Zle_Qle. exact Hm. }
    generalize dependent (inject_Z m). intros q Hq. qdiv_const. lra. }
  rewrite !np_random_normal_run
    by (apply Hscale; apply Z.min_glb; [lia | apply Z.div_pos; lia]).
  unfold mbind, result_bind, mret, result_ret, np_clip_int.
  eexists _, _. split; [reflexivity |].
  assert ((- width) / 2 + 5 <= width / 2 - 5)%Z
    by (pose proof (Z.div_le_mono (-20) (- width) 2);
        pose proof (Z.div_le_mono 20 width 2);
        assert (- width / 2 <= - 5)%Z
          by (apply Z.div_le_upper_bound; lia);
        assert (5 <= width / 2)%Z by (apply Z.div_le_lower_bound; lia);
        lia).
  assert ((- height) / 2 + 5 <= height / 2 - 5)%Z
    by (assert (- height / 2 <= - 5)%Z
          by (apply Z.div_le_upper_bound; lia);
        assert (5 <= height / 2)%Z by (apply Z.div_le_lower_bound; lia);
        lia).
  lia.
Qed.

(** X22. For an even width of at least 10 the clamp is symmetric: the
    horizontal offset that [human_click] computes stays within
    [width // 2 - 5] of the centre, whatever the variance and the
    sample. *)
Lemma human_click_offset_even_width
    (variance width height dx dy : Z) (gx gy : Q) :
  (10 <= width)%Z -> (width mod 2 = 0)%Z ->
  human_click_offset variance width height gx gy = inr (dx, dy) ->
  (Z.abs dx <= width / 2 - 5)%Z.
Proof.
  intros Hw Heven. unfold human_click_offset.
  destruct (np_random_normal 0 _ gx) as [e|x]; [discriminate |].
  unfold mbind at 1, result_bind at 1.
  destruct (np_random_normal 0 _ gy) as [e|y]; [discriminate |].
  unfold mbind, result_bind, mret, result_ret, np_clip_int.
  intros E. injection E as <- _.
  assert ((- width) / 2 = - (width / 2))%Z as Hneg.
  { rewrite (Z.div_mod width 2) at 1 by lia. rewrite Heven, Z.add_0_r.
    replace (- (2 * (width / 2)))%Z with ((- (width / 2)) * 2)%Z by lia.
    apply Z.div_mul. lia. }
  assert (5 <= width / 2)%Z by (apply Z.div_le_lower_bound; lia).
  rewrite Hneg. lia.
Qed.

(** C8, at the failing input.  An element 21 wide and 20 high, the
    default variance 10 and a horizontal sample two standard deviations to
    the left: the offset is [(-6, 0)], and 6 exceeds [21 / 2 - 5], be the
    division exact (5.5) or rounded down (5). *)
Theorem human_click_offset_odd_width :
  human_click_offset 10 21 20 (-2) 0 = inr ((-6)%Z, 0%Z)
  /\ ((- 21) / 2 + 5 = - 6)%Z
  /\ inject_Z 21 / 2 - 5 < Qabs (inject_Z (-6))
  /\ (21 / 2 - 5 < Z.abs (-6))%Z.
Proof.
  repeat apply conj.
  - vm_compute. reflexivity.
  - reflexivity.
  - vm_compute. reflexivity.
  - reflexivity.
Qed.

(** ** [human_scroll] *)

Lemma scroll_deltas_app (tr1 tr2 : list Effect) :
  scroll_deltas (tr1 ++ tr2) = scroll_deltas tr1 ++ scroll_deltas tr2.
Proof. unfold scroll_deltas. apply omap_app. Qed.

(** The pause between two steps, as [human_scroll] asks for it. *)
Lemma scroll_pause_run (g : Q) :
  human_delay 50 150 "normal" g
  = ([Sleep (np_clip ((50 + 150) / 2 + (150 - 50) / 6 * g) 50 150 / 1000)],
     inr tt).
Proof.
  apply human_delay_normal_run;
    [lra | lra | apply short_sleep_within_limit; lra].
Qed.

(** A loop whose every round sends the same command and then pauses, on a
    page that runs every script. *)
Lemma for_each_scroll_run (e : Effect) (g : nat -> Q) (l : list nat) :
  for_each l (fun i =>
    execute_script true e;; human_delay 50 150 "normal" (g i))
  = (concat ((fun i =>
               [e; Sleep (np_clip ((50 + 150) / 2 + (150 - 50) / 6 * g i)
                            50 150 / 1000)]) <$> l),
     inr tt).
Proof.
  induction l as [| i l IH]; [reflexivity |].
  cbn [for_each fmap list_fmap concat].
  rewrite IH, scroll_pause_run. reflexivity.
Qed.

Lemma scroll_deltas_rounds (element : bool) (per_step : Z) (g : nat -> Q)
    (l : list nat) :
  scroll_deltas
    (concat ((fun i =>
               [if element then ScrollElementBy per_step
                else ScrollWindowBy per_step;
                Sleep (np_clip ((50 + 150) / 2 + (150 - 50) / 6 * g i)
                         50 150 / 1000)]) <$> l))
  = replicate (length l) per_step.
Proof.
  induction l as [| i l IH]; [reflexivity |].
  cbn [fmap list_fmap concat length replicate].
  cbn [fmap list_fmap] in IH.
  rewrite scroll_deltas_app, IH. destruct element; reflexivity.
Qed.

Lemma sum_list_replicate (n : nat) (x : Z) :
  sum_list (replicate n x) = (Z.of_nat n * x)%Z.
Proof.
  induction n as [| n IH]; [reflexivity |].
  cbn [replicate]. unfold sum_list in *. cbn [foldr]. rewrite IH. lia.
Qed.

(** What [human_scroll] sends: [steps] equal deltas, [steps] being one of
    2, 3, 4, 5; their sum misses the signed amount by its remainder
    modulo [steps]. *)
Lemma human_scroll_deltas (direction : string) (amount : Z)
    (element : bool) (d : ScrollDraws) :
  (0 <= k_steps d < 4)%Z ->
  let steps := random_randint 2 5 (k_steps d) in
  let scroll_amount :=
    if decide (direction = "down") then amount else (- amount)%Z in
  let deltas :=
    scroll_deltas (effects (human_scroll direction (Some amount) element d))
  in
  (2 <= steps <= 5)%Z
  /\ Z.of_nat (length deltas) = steps
  /\ deltas = replicate (Z.to_nat steps) (scroll_amount / steps)%Z
  /\ sum_list deltas = (scroll_amount - scroll_amount mod steps)%Z.
Proof.
  intros Hk steps scroll_amount deltas.
  assert (2 <= steps <= 5)%Z as Hs by (unfold steps, random_randint; lia).
  assert (deltas = replicate (Z.to_nat steps) (scroll_amount / steps)%Z)
    as Hd.
  { unfold deltas, human_scroll, human_scroll_on.
    fold steps scroll_amount.
    rewrite for_each_scroll_run. unfold effects. cbn [fst].
    rewrite scroll_deltas_rounds. unfold range.
    rewrite length_seq. reflexivity. }
  repeat apply conj.
  - lia.
  - lia.
  - rewrite Hd, length_replicate. lia.
  - exact Hd.
  - rewrite Hd, sum_list_replicate.
    pose proof (Z.div_mod scroll_amount steps). lia.
Qed.

(** C2, at the failing input.  [human_scroll(driver, 'down', 100)] when
    [randint(2, 5)] gives 3: three steps of 33 pixels are sent, 99 in all
    and not 100 -- the remainder of [100 // 3] is not made up in the last
    step; upwards the three steps of -34 overshoot to -102. *)
Theorem human_scroll_drops_remainder :
  let d := {| k_amount := 0; k_steps := 1; g_pause := fun _ => 0 |} in
  let down := scroll_deltas (effects (human_scroll "down" (Some 100%Z)
                                        false d)) in
  let up := scroll_deltas (effects (human_scroll "up" (Some 100%Z)
                                      false d)) in
  random_randint 2 5 (k_steps d) = 3%Z
  /\ down = [33; 33; 33]%Z
  /\ sum_list down = 99%Z
  /\ sum_list down <> 100%Z
  /\ up = [-34; -34; -34]%Z
  /\ sum_list up <> (-100)%Z.
Proof.
  repeat apply conj; try (vm_compute; reflexivity);
    vm_compute; discriminate.
Qed.

(** * Further properties of the session pacer *)

(** ** Fatigue over time *)

Lemma time_component_mono (t1 t2 : Q) :
  t1 <= t2 -> Spec.time_component t1 <= Spec.time_component t2.
Proof.
  intros H. unfold Spec.time_component. apply Q.min_glb.
  - apply Q.le_min_l.
  - eapply Qle_trans; [apply Q.le_min_r |]. lra.
Qed.

Lemma time_component_max_iff (t : Q) :
  Spec.time_component t == 1.25 <-> 5 <= t.
Proof.
  split; [| apply time_component_capped].
  unfold Spec.time_component.
  destruct (Q.min_spec 1.25 (1.0 + 0.05 * t)) as [[Hlt E]|[Hle E]];
    rewrite E; lra.
Qed.

Lemma count_component_max_iff (n : Z) :
  Spec.count_component n == 1.1 <-> (1500 <= n)%Z.
Proof.
  unfold Spec.count_component.
  destruct (Z.ltb_spec 500 n) as [Hn|Hn].
  - destruct (Z_le_gt_dec 1500 n) as [Hge|Hlt].
    + assert (inject_Z 1000 <= inject_Z (n - 500)) as H0
        by (rewrite <- Zle_Qle; lia).
      change (inject_Z 1000) with 1000 in H0.
      generalize dependent (inject_Z (n - 500)). intros k Hk.
      qdiv_const. split; [intros _; exact Hge | intros _].
      destruct (Q.min_spec 1.1 (1.0 + k * (1 # 10000))) as [[? E]|[? E]];
        rewrite E; lra.
    + assert (inject_Z (n - 500) <= inject_Z 999) as H0
        by (rewrite <- Zle_Qle; lia).
      change (inject_Z 999) with 999 in H0.
      generalize dependent (inject_Z (n - 500)). intros k Hk.
      qdiv_const. split; [| lia].
      destruct (Q.min_spec 1.1 (1.0 + k * (1 # 10000))) as [[? E]|[? E]];
        rewrite E; lra.
  - split; [intros H; exfalso; lra | lia].
Qed.

(** X1. At a fixed action count the fatigue multiplier never decreases as
    the clock advances, whatever the state of the object. *)
Theorem fatigue_nondecreasing_in_time
    (cfg : SafetyConfig) (now1 now2 : Q) (self : t) :
  now1 <= now2 ->
  fst (_calculate_fatigue cfg now1 self)
  <= fst (_calculate_fatigue cfg now2 self).
Proof.
  intros H. rewrite !calculate_fatigue_eq. unfold Spec.fatigue_multiplier.
  destruct (ENABLE_FATIGUE cfg); [| lra].
  pose proof (count_component_bounds (action_count self)) as [Hc _].
  assert (Spec.time_component ((now1 - start_time self) / 3600)
          <= Spec.time_component ((now2 - start_time self) / 3600)) as Ht.
  { apply time_component_mono. qdiv_const. lra. }
  apply Qmult_le_compat_r; [exact Ht | lra].
Qed.

(** One hour and three hours into a session of 600 actions. *)
Lemma fatigue_nondecreasing_in_time_witness :
  fst (_calculate_fatigue SAFETY_CONFIG 3600 (pacer_with_count 600))
  <= fst (_calculate_fatigue SAFETY_CONFIG 10800 (pacer_with_count 600)).
Proof.
  apply (fatigue_nondecreasing_in_time SAFETY_CONFIG 3600 10800).
  vm_compute. discriminate.
Defined.

(** X2. With fatigue enabled and the clock not behind [start_time], the
    multiplier reaches its maximum 1.375 exactly when at least five hours
    have elapsed and at least 1500 actions have been recorded. *)
Theorem fatigue_maximum_iff (cfg : SafetyConfig) (now : Q) (self : t) :
  ENABLE_FATIGUE cfg = true ->
  start_time self <= now ->
  fst (_calculate_fatigue cfg now self) == 1.375
  <-> 5 * 3600 <= now - start_time self /\ (1500 <= action_count self)%Z.
Proof.
  intros En Hs. rewrite calculate_fatigue_eq, En.
  unfold Spec.fatigue_multiplier.
  set (t_hours := (now - start_time self) / 3600).
  assert (0 <= t_hours) as Ht by (apply elapsed_hours_nonneg, Hs).
  assert (5 <= t_hours <-> 5 * 3600 <= now - start_time self) as Hh
    by (unfold t_hours; qdiv_const; split; intros; lra).
  rewrite <- Hh, <- time_component_max_iff, <- count_component_max_iff.
  pose proof (time_component_bounds t_hours Ht) as [Ht1 Ht2].
  pose proof (count_component_bounds (action_count self)) as [Hc1 Hc2].
  generalize dependent (Spec.time_component t_hours). intros tc ? ?.
  generalize dependent (Spec.count_component (action_count self)).
  intros cc ? ?.
  split.
  - intros E.
    destruct (Qlt_le_dec tc 1.25) as [Hlt|Hge]; [exfalso; nra |].
    destruct (Qlt_le_dec cc 1.1) as [Hlt'|Hge']; [exfalso; nra |].
    split; lra.
  - intros [E1 E2]. rewrite E1, E2. reflexivity.
Qed.

(** Five hours and 1500 actions. *)
Lemma fatigue_maximum_iff_witness :
  fst (_calculate_fatigue SAFETY_CONFIG 18000 (pacer_with_count 1500))
  == 1.375.
Proof.
  apply (fatigue_maximum_iff SAFETY_CONFIG 18000 (pacer_with_count 1500)).
  - reflexivity.
  - vm_compute. discriminate.
  - split; [vm_compute; discriminate | cbn; lia].
Defined.

(** ** The range of a delay *)

(** Every range of [delay_ranges], and the default range, is ordered and
    non-negative as soon as the configured click range is. *)
Lemma delay_range_ordered (cfg : SafetyConfig) (action_type : string) :
  0 <= MIN_CLICK_DELAY cfg <= MAX_CLICK_DELAY cfg ->
  let r := default (0.3, 0.8) (delay_ranges cfg !! action_type) in
  0 <= fst r <= snd r.
Proof.
  intros [Hmin Hmax].
  destruct (delay_ranges cfg !! action_type) as [r|] eqn:E; cbn.
  - apply elem_of_list_to_map_2 in E.
    repeat (apply elem_of_cons in E as [E|E];
            [injection E as _ ->; cbn; split; (assumption || lra) |]).
    inversion E.
  - split; lra.
Qed.

(** X3. With an ordered non-negative click range, a variance fraction in
    [0, 1], draws in [0, 1] and the clock not behind [start_time], the
    delay of a call lies between [min_delay * (1 - variance)] and
    [max_delay * 1.375 * (1 + variance)], where [(min_delay, max_delay)]
    is the range of the category (the default range for an unknown
    one). *)
Theorem get_delay_envelope
    (cfg : SafetyConfig) (action_type : string) (d : DelayDraws) (self : t) :
  0 <= MIN_CLICK_DELAY cfg <= MAX_CLICK_DELAY cfg ->
  0 <= RANDOM_VARIANCE cfg <= 1 ->
  0 <= u_base d <= 1 -> 0 <= u_variance d <= 1 ->
  start_time self <= now_fatigue d ->
  let r := default (0.3, 0.8) (delay_ranges cfg !! action_type) in
  fst r * (1 - RANDOM_VARIANCE cfg)
  <= fst (get_delay cfg action_type d self)
  <= snd r * 1.375 * (1 + RANDOM_VARIANCE cfg).
Proof.
  intros Hclick Hv Hu1 Hu2 Hstart r.
  rewrite get_delay_value. unfold final_delay_of.
  pose proof (delay_range_ordered cfg action_type Hclick) as Hr.
  fold r in Hr. cbn zeta in Hr. destruct Hr as [Hr0 Hr1].
  assert (fst r <= base_delay_of cfg action_type d <= snd r) as [Hb1 Hb2].
  { unfold base_delay_of. fold r. destruct r as [lo hi]. cbn [fst snd] in *.
    apply random_uniform_bounds; assumption. }
  assert (1 - RANDOM_VARIANCE cfg <= variance_factor cfg d
          <= 1 + RANDOM_VARIANCE cfg) as [Hv1 Hv2].
  { unfold variance_factor. apply random_uniform_bounds; [lra | exact Hu2]. }
  assert (1 <= fst (_calculate_fatigue cfg (now_fatigue d) self) <= 1.375)
    as [Hf1 Hf2].
  { rewrite calculate_fatigue_eq.
    apply fatigue_multiplier_bounds, elapsed_hours_nonneg, Hstart. }
  destruct Hv as [Hv0 Hv01].
  generalize dependent (fst (_calculate_fatigue cfg (now_fatigue d) self)).
  generalize dependent (variance_factor cfg d).
  generalize dependent (base_delay_of cfg action_type d).
  generalize dependent (RANDOM_VARIANCE cfg).
  generalize dependent (fst r). generalize dependent (snd r).
  intros hi lo Hlo Hhi v Hv0 Hv01 b Hb1 Hb2 vf Hvf1 Hvf2 f Hf1 Hf2.
  assert (lo <= b * f) by nra.
  assert (b * f <= hi * 1.375) by nra.
  split; nra.
Qed.

(** A battle action with the default table: between 0.21 s and 1.43 s. *)
Lemma get_delay_envelope_witness :
  0.21 <= fst (get_delay SAFETY_CONFIG "battle" draws_at_zero (init 0 0))
       <= 1.43.
Proof.
  destruct (get_delay_envelope SAFETY_CONFIG "battle" draws_at_zero
              (init 0 0)) as [Hlo Hhi].
  - vm_compute. intuition discriminate.
  - vm_compute. intuition discriminate.
  - vm_compute. intuition discriminate.
  - vm_compute. intuition discriminate.
  - vm_compute. discriminate.
  - split.
    + eapply Qle_trans; [| exact Hlo]. vm_compute. discriminate.
    + eapply Qle_trans; [exact Hhi |]. vm_compute. discriminate.
Defined.

(** X4. A category that is not a key of [delay_ranges] gets the delay of
    a ['battle'] action: same value for the same draws and state, same
    update of [action_count]. *)
Theorem get_delay_unknown_category
    (cfg : SafetyConfig) (action_type : string) (d : DelayDraws) (self : t) :
  action_type ∉ ["click"; "battle"; "reading"; "summon"; "results";
                 "navigation"] ->
  fst (get_delay cfg action_type d self)
  = fst (get_delay cfg "battle" d self)
  /\ action_count (snd (get_delay cfg action_type d self))
     = action_count (snd (get_delay cfg "battle" d self)).
Proof.
  intros Hnot. rewrite !get_delay_run. cbn [fst snd action_count].
  split; [| reflexivity].
  unfold final_delay_of, base_delay_of.
  assert (delay_ranges cfg !! action_type = None) as ->
    by (apply not_elem_of_list_to_map_1; exact Hnot).
  reflexivity.
Qed.

(** The category ['coop'] is not in the table. *)
Lemma get_delay_unknown_category_witness :
  fst (get_delay SAFETY_CONFIG "coop" draws_at_zero (init 0 0))
  = fst (get_delay SAFETY_CONFIG "battle" draws_at_zero (init 0 0)).
Proof.
  apply (get_delay_unknown_category SAFETY_CONFIG "coop" draws_at_zero
           (init 0 0)).
  intros H. repeat (apply elem_of_cons in H as [H|H]; [discriminate |]).
  inversion H.
Defined.

(** X5. Whatever the history was, after a call of [get_delay] the newest
    entry of [action_history] is the record of that call: its category,
    the clock reading taken for it and the very delay that was returned. *)
Theorem get_delay_records_call
    (cfg : SafetyConfig) (action_type : string) (d : DelayDraws) (self : t) :
  last (action_history (snd (get_delay cfg action_type d self)))
  = Some {| rec_time := now_record d;
            rec_type := action_type;
            rec_delay := fst (get_delay cfg action_type d self) |}.
Proof.
  rewrite get_delay_run. cbn [fst snd action_history].
  unfold evict_oldest, appended_record.
  destruct (Z.ltb_spec 100
              (Z.of_nat (length (action_history self ++
                 [{| rec_time := now_record d; rec_type := action_type;
                     rec_delay := final_delay_of cfg action_type d self |}]))))
    as [Hlt|Hge].
  - rewrite length_app in Hlt. cbn in Hlt.
    rewrite drop_app_le by lia. apply last_snoc.
  - apply last_snoc.
Qed.

(** X6. With fatigue disabled the delay depends neither on the clock nor
    on the object: it is the base delay times the variance factor. *)
Theorem get_delay_fatigue_disabled
    (cfg : SafetyConfig) (action_type : string) (d1 d2 : DelayDraws)
    (self1 self2 : t) :
  ENABLE_FATIGUE cfg = false ->
  u_base d1 = u_base d2 -> u_variance d1 = u_variance d2 ->
  fst (get_delay cfg action_type d1 self1)
  = fst (get_delay cfg action_type d2 self2)
  /\ fst (get_delay cfg action_type d1 self1)
     == base_delay_of cfg action_type d1 * variance_factor cfg d1.
Proof.
  intros En Hb Hv. rewrite !get_delay_value.
  unfold final_delay_of, base_delay_of, variance_factor, _calculate_fatigue.
  rewrite En, Hb, Hv. cbn [negb]. unfold mret, M_ret. cbn [fst].
  split; [reflexivity | ring].
Qed.

(** A fresh session now and a session of 2000 actions ten hours on. *)
Lemma get_delay_fatigue_disabled_witness :
  fst (get_delay no_fatigue_config "click" draws_at_zero (init 0 0))
  = fst (get_delay no_fatigue_config "click" draws_at_ten_hours
           (pacer_with_count 2000)).
Proof.
  apply (get_delay_fatigue_disabled no_fatigue_config "click"
           draws_at_zero draws_at_ten_hours (init 0 0)
           (pacer_with_count 2000));
    reflexivity.
Defined.

(** ** Breaks and the driving loop *)

Lemma get_delays_frame (cfg : SafetyConfig)
    (calls : list (string * DelayDraws)) :
  forall self : t,
    start_time (snd (get_delays cfg calls self)) = start_time self
    /\ last_break_time (snd (get_delays cfg calls self))
       = last_break_time self.
Proof.
  induction calls as [| [action_type d] calls IH]; intros self;
    [split; reflexivity |].
  cbn [get_delays]. run_method. rewrite get_delay_run. cbn [fst snd].
  match goal with
  | |- context [get_delays cfg calls ?s] =>
      specialize (IH s); destruct (get_delays cfg calls s) as [xs self2]
  end.
  cbn [fst snd start_time last_break_time] in *. exact IH.
Qed.

(** X7. Asking for delays does not move the break schedule: after any
    sequence of [get_delay] calls, [should_take_break] answers as it would
    have answered on the object before them, for the same clock reading
    and draws. *)
Theorem should_take_break_after_get_delays
    (cfg : SafetyConfig) (calls : list (string * DelayDraws))
    (now coin : Q) (bd : BreakDraws) (self : t) :
  fst (should_take_break cfg now coin bd (snd (get_delays cfg calls self)))
  = fst (should_take_break cfg now coin bd self).
Proof.
  destruct (get_delays_frame cfg calls self) as [Hs Hl].
  rewrite !should_take_break_run. cbn [fst]. rewrite Hs, Hl. reflexivity.
Qed.

Lemma record_break_run (now : Q) (self : t) :
  record_break now self = (tt, set_last_break_time now self).
Proof. reflexivity. Qed.

(** X8. [record_break] changes [last_break_time] and nothing else, and a
    poll made less than [BREAK_FREQUENCY] after it never reports the
    scheduled break: with [random()] at least 0.001 it reports the long
    break when the session cap is reached and no break otherwise. *)
Theorem record_break_then_poll
    (cfg : SafetyConfig) (t_break now coin : Q) (bd : BreakDraws)
    (self : t) :
  now - t_break < inject_Z (BREAK_FREQUENCY cfg) ->
  0.001 <= coin ->
  let self' := snd (record_break t_break self) in
  last_break_time self' = t_break
  /\ start_time self' = start_time self
  /\ action_count self' = action_count self
  /\ action_history self' = action_history self
  /\ fst (should_take_break cfg now coin bd self')
     = if Qgeb (now - start_time self)
            (inject_Z (MAX_SESSION_DURATION cfg))
       then (true, random_uniform 1800 3600 (u_long bd))
       else (false, 0).
Proof.
  intros Hfreq Hcoin self'. unfold self'. rewrite record_break_run.
  cbn [snd]. repeat split.
  rewrite should_take_break_run.
  cbn [fst set_last_break_time last_break_time start_time].
  apply Qgeb_false in Hfreq. apply Qltb_false in Hcoin.
  rewrite Hfreq, Hcoin. reflexivity.
Qed.

(** A break recorded five hours into the session, polled a minute later:
    the session cap of four hours shows. *)
Lemma record_break_then_poll_witness :
  fst (should_take_break SAFETY_CONFIG 18060 0.5 break_draws_mid
         (snd (record_break 18000 (init 0 0))))
  = (true, random_uniform 1800 3600 0.5).
Proof.
  destruct (record_break_then_poll SAFETY_CONFIG 18000 18060 0.5
              break_draws_mid (init 0 0))
    as (_ & _ & _ & _ & H).
  - vm_compute. reflexivity.
  - vm_compute. discriminate.
  - rewrite H. reflexivity.
Defined.

(** X9. The session cap cannot be cleared: once [MAX_SESSION_DURATION]
    has elapsed since [start_time], every poll asks for a break, whatever
    the draws and however recently a break was recorded. *)
Theorem session_cap_is_permanent
    (cfg : SafetyConfig) (t_break now coin : Q) (bd : BreakDraws)
    (self : t) :
  inject_Z (MAX_SESSION_DURATION cfg) <= now - start_time self ->
  fst (fst (should_take_break cfg now coin bd self)) = true
  /\ fst (fst (should_take_break cfg now coin bd
                 (snd (record_break t_break self)))) = true.
Proof.
  intros Hcap. rewrite record_break_run, !should_take_break_run.
  cbn [fst snd set_last_break_time last_break_time start_time].
  apply Qgeb_spec in Hcap. rewrite Hcap. clear Hcap.
  split.
  - destruct (Qgeb (now - last_break_time self) _); [reflexivity |].
    destruct (Qltb coin 0.001); reflexivity.
  - destruct (Qgeb (now - t_break) _); [reflexivity |].
    destruct (Qltb coin 0.001); reflexivity.
Qed.

(** Five hours into the session, a break recorded at that very instant. *)
Lemma session_cap_is_permanent_witness :
  fst (fst (should_take_break SAFETY_CONFIG 18000 0.5 break_draws_mid
              (snd (record_break 18000 (init 0 0))))) = true.
Proof.
  apply (session_cap_is_permanent SAFETY_CONFIG 18000 18000 0.5
           break_draws_mid (init 0 0)).
  vm_compute. discriminate.
Defined.

(** X10. With draws in [0, 1], [should_take_break] returns either
    [(True, d)] with [30 <= d <= 3600] or [(False, 0)]. *)
Theorem should_take_break_duration_range
    (cfg : SafetyConfig) (now coin : Q) (bd : BreakDraws) (self : t) :
  0 <= u_scheduled bd <= 1 -> 0 <= u_micro bd <= 1 -> 0 <= u_long bd <= 1 ->
  let res := fst (should_take_break cfg now coin bd self) in
  (fst res = true /\ 30 <= snd res <= 3600) \/ res = (false, 0).
Proof.
  intros Hs Hm Hl res. unfold res. rewrite should_take_break_run.
  cbn [fst].
  pose proof (random_uniform_bounds 600 1200 (u_scheduled bd)) as B1.
  pose proof (random_uniform_bounds 30 120 (u_micro bd)) as B2.
  pose proof (random_uniform_bounds 1800 3600 (u_long bd)) as B3.
  destruct (Qgeb _ _); [left; cbn; split; [reflexivity | lra] |].
  destruct (Qltb _ _); [left; cbn; split; [reflexivity | lra] |].
  destruct (Qgeb _ _); [left; cbn; split; [reflexivity | lra] |].
  right. reflexivity.
Qed.

(** A poll two hours after the last break. *)
Lemma should_take_break_duration_range_witness :
  let res := fst (should_take_break SAFETY_CONFIG 7200 0.5 break_draws_mid
                    (init 0 0)) in
  (fst res = true /\ 30 <= snd res <= 3600) \/ res = (false, 0).
Proof.
  apply (should_take_break_duration_range SAFETY_CONFIG 7200 0.5
           break_draws_mid (init 0 0));
    vm_compute; intuition discriminate.
Defined.

(** X11. [_get_break_duration] draws within the range of the break type
    -- micro [30, 120], short [300, 600], scheduled [600, 1200], long
    [1800, 3600] seconds -- and answers exactly 600 for any other type;
    it leaves the object as it was. *)
Theorem get_break_duration_table
    (break_type : string) (bd : BreakDraws) (self : t) :
  0 <= u_micro bd <= 1 -> 0 <= u_short bd <= 1 ->
  0 <= u_scheduled bd <= 1 -> 0 <= u_long bd <= 1 ->
  let x := fst (_get_break_duration break_type bd self) in
  snd (_get_break_duration break_type bd self) = self
  /\ (break_type = "micro" -> 30 <= x <= 120)
  /\ (break_type = "short" -> 300 <= x <= 600)
  /\ (break_type = "scheduled" -> 600 <= x <= 1200)
  /\ (break_type = "long" -> 1800 <= x <= 3600)
  /\ (break_type ∉ ["micro"; "short"; "scheduled"; "long"] -> x = 600)
  /\ 30 <= x <= 3600.
Proof.
  intros Hm Hsh Hsc Hl x.
  pose proof (random_uniform_bounds 30 120 (u_micro bd)) as B1.
  pose proof (random_uniform_bounds 300 600 (u_short bd)) as B2.
  pose proof (random_uniform_bounds 600 1200 (u_scheduled bd)) as B3.
  pose proof (random_uniform_bounds 1800 3600 (u_long bd)) as B4.
  assert (break_type ∉ ["micro"; "short"; "scheduled"; "long"] -> x = 600)
    as Hdefault.
  { intros Hnot. unfold x, _get_break_duration, mret, M_ret. cbn [fst].
    rewrite (not_elem_of_list_to_map_1 _ break_type); [reflexivity |].
    exact Hnot. }
  repeat apply conj.
  - reflexivity.
  - intros E. subst x break_type. change (fst _) with
      (random_uniform 30 120 (u_micro bd)). lra.
  - intros E. subst x break_type. change (fst _) with
      (random_uniform 300 600 (u_short bd)). lra.
  - intros E. subst x break_type. change (fst _) with
      (random_uniform 600 1200 (u_scheduled bd)). lra.
  - intros E. subst x break_type. change (fst _) with
      (random_uniform 1800 3600 (u_long bd)). lra.
  - exact Hdefault.
  - destruct (decide (break_type = "micro")) as [->|N1];
      [change x with (random_uniform 30 120 (u_micro bd)); lra |].
    destruct (decide (break_type = "short")) as [->|N2];
      [change x with (random_uniform 300 600 (u_short bd)); lra |].
    destruct (decide (break_type = "scheduled")) as [->|N3];
      [change x with (random_uniform 600 1200 (u_scheduled bd)); lra |].
    destruct (decide (break_type = "long")) as [->|N4];
      [change x with (random_uniform 1800 3600 (u_long bd)); lra |].
    rewrite Hdefault; [lra |].
    intros H. repeat (apply elem_of_cons in H as [H|H]; [congruence |]).
    inversion H.
  - destruct (decide (break_type = "micro")) as [->|N1];
      [change x with (random_uniform 30 120 (u_micro bd)); lra |].
    destruct (decide (break_type = "short")) as [->|N2];
      [change x with (random_uniform 300 600 (u_short bd)); lra |].
    destruct (decide (break_type = "scheduled")) as [->|N3];
      [change x with (random_uniform 600 1200 (u_scheduled bd)); lra |].
    destruct (decide (break_type = "long")) as [->|N4];
      [change x with (random_uniform 1800 3600 (u_long bd)); lra |].
    rewrite Hdefault; [lra |].
    intros H. repeat (apply elem_of_cons in H as [H|H]; [congruence |]).
    inversion H.
Qed.

(** A break type that the table does not know. *)
Lemma get_break_duration_table_witness :
  fst (_get_break_duration "lunch" break_draws_mid (init 0 0)) = 600.
Proof.
  destruct (get_break_duration_table "lunch" break_draws_mid (init 0 0))
    as (_ & _ & _ & _ & _ & H & _).
  - vm_compute. intuition discriminate.
  - vm_compute. intuition discriminate.
  - vm_compute. intuition discriminate.
  - vm_compute. intuition discriminate.
  - apply H. intros E.
    repeat (apply elem_of_cons in E as [E|E]; [discriminate |]).
    inversion E.
Defined.

(** ** Session statistics *)

Lemma get_session_stats_run (cfg : SafetyConfig) (now1 now2 now3 : Q)
    (self : t) :
  get_session_stats cfg now1 now2 now3 self
  = ({| session_duration_hours := (now1 - start_time self) / 3600;
        total_actions := action_count self;
        time_since_break_minutes := (now2 - last_break_time self) / 60;
        current_fatigue := fst (_calculate_fatigue cfg now3 self);
        actions_per_hour :=
          if Qltb 0 (now1 - start_time self)
          then inject_Z (action_count self)
               / ((now1 - start_time self) / 3600)
          else 0 |},
     self).
Proof.
  unfold get_session_stats. run_method.
  pose proof (calculate_fatigue_frame cfg now3 self) as Hfr.
  destruct (_calculate_fatigue cfg now3 self) as [f self'].
  cbn [fst snd] in *. subst self'. reflexivity.
Qed.

(** X12. [get_session_stats] only reads the object.  The rate it reports
    is 0 whenever the clock reading is not after [start_time] (no division
    by zero, also when the clock ran backwards); otherwise the rate times
    the reported hours gives back the reported number of actions.  The
    fatigue it reports is the multiplier that a call of [get_delay] at the
    same clock reading applies. *)
Theorem get_session_stats_contract
    (cfg : SafetyConfig) (now1 now2 now3 : Q) (self : t) :
  let stats := fst (get_session_stats cfg now1 now2 now3 self) in
  snd (get_session_stats cfg now1 now2 now3 self) = self
  /\ total_actions stats = action_count self
  /\ session_duration_hours stats * 3600 == now1 - start_time self
  /\ time_since_break_minutes stats * 60 == now2 - last_break_time self
  /\ (now1 <= start_time self -> actions_per_hour stats = 0)
  /\ (start_time self < now1 ->
      actions_per_hour stats * session_duration_hours stats
      == inject_Z (total_actions stats))
  /\ (forall action_type d,
        now_fatigue d = now3 ->
        fst (get_delay cfg action_type d self)
        = base_delay_of cfg action_type d * current_fatigue stats
          * variance_factor cfg d).
Proof.
  intros stats. unfold stats. rewrite get_session_stats_run.
  cbn [fst snd total_actions session_duration_hours
       time_since_break_minutes actions_per_hour current_fatigue].
  repeat apply conj.
  - reflexivity.
  - reflexivity.
  - field.
  - field.
  - intros H. assert (Qltb 0 (now1 - start_time self) = false) as ->
      by (apply Qltb_false; lra).
    reflexivity.
  - intros H. assert (Qltb 0 (now1 - start_time self) = true) as ->
      by (apply Qltb_spec; lra).
    field. intros E. lra.
  - intros action_type d <-. rewrite get_delay_value. reflexivity.
Qed.

(** Ten actions in the first hour: ten actions per hour. *)
Lemma get_session_stats_contract_witness :
  let stats := fst (get_session_stats SAFETY_CONFIG 3600 3600 3600
                      (pacer_with_count 10)) in
  actions_per_hour stats * session_duration_hours stats == 10
  /\ actions_per_hour
       (fst (get_session_stats SAFETY_CONFIG 0 0 0 (init 0 0))) = 0.
Proof.
  split.
  - destruct (get_session_stats_contract SAFETY_CONFIG 3600 3600 3600
                (pacer_with_count 10)) as (_ & _ & _ & _ & _ & H & _).
    apply H. vm_compute. reflexivity.
  - destruct (get_session_stats_contract SAFETY_CONFIG 0 0 0 (init 0 0))
      as (_ & _ & _ & _ & H & _).
    apply H. vm_compute. discriminate.
Defined.

(** X13. After any sequence of [get_delay] calls on a new object the
    statistics count exactly the calls made, also beyond the 100 that the
    history keeps. *)
Theorem get_session_stats_counts_calls
    (cfg : SafetyConfig) (calls : list (string * DelayDraws))
    (t0 t1 now1 now2 now3 : Q) :
  let self := snd (get_delays cfg calls (init t0 t1)) in
  let stats := fst (get_session_stats cfg now1 now2 now3 self) in
  total_actions stats = Z.of_nat (length calls)
  /\ (length (action_history self) <= length calls)%nat
  /\ (t0 < now1 ->
      actions_per_hour stats * ((now1 - t0) / 3600)
      == inject_Z (Z.of_nat (length calls))).
Proof.
  intros self stats. unfold stats. rewrite get_session_stats_run.
  cbn [fst total_actions actions_per_hour].
  destruct (get_delays_run cfg calls (init t0 t1)) as [Hn Hh];
    [cbn; lia |].
  destruct (get_delays_frame cfg calls (init t0 t1)) as [Hs _].
  fold self in Hn, Hh, Hs.
  change (action_count (init t0 t1)) with 0%Z in Hn.
  change (start_time (init t0 t1)) with t0 in Hs.
  change (action_history (init t0 t1)) with (@nil ActionRecord) in Hh.
  rewrite app_nil_l in Hh.
  repeat apply conj.
  - lia.
  - rewrite Hh, length_last_n, length_all_records. lia.
  - intros H. rewrite Hs, Hn, Z.add_0_l.
    assert (Qltb 0 (now1 - t0) = true) as -> by (apply Qltb_spec; lra).
    field. intros E. lra.
Qed.

(** * Further properties of the gesture functions *)

(** ** Delays and pauses *)

Lemma time_sleep_negative (seconds : Q) :
  - sleepable_sec <= seconds -> seconds < 0 ->
  time_sleep seconds
  = ([], inl (ValueError "sleep length must be non-negative")).
Proof.
  intros Hlo H. unfold time_sleep.
  rewrite time_sleep_in_range
    by (unfold sleepable_sec, sleep_limit, sleep_ns_max, sleep_ns_min in *;
        qdiv_const; split; lra).
  apply Qltb_spec in H. rewrite H. reflexivity.
Qed.

Lemma time_sleep_overflow (seconds : Q) :
  unsleepable_ms / 1000 <= seconds ->
  time_sleep seconds = ([], inl OverflowError).
Proof.
  intros H. unfold time_sleep.
  assert (Qltb sleep_ns_max (seconds * 1000000000) = true) as ->.
  { apply Qltb_spec. unfold unsleepable_ms, sleep_ns_max in *.
    qdiv_const. lra. }
  reflexivity.
Qed.

(** What [human_delay] hands to [time.sleep] when the sampler does not
    raise. *)
Lemma human_delay_run (min_ms max_ms draw : Q) (distribution : string) :
  (distribution = "normal" -> min_ms <= max_ms) ->
  exists delay_ms : Q,
    human_delay min_ms max_ms distribution draw
    = time_sleep (delay_ms / 1000)
    /\ delay_ms
       = (if decide (distribution = "normal")
          then np_clip ((min_ms + max_ms) / 2 + (max_ms - min_ms) / 6 * draw)
                 min_ms max_ms
          else random_uniform min_ms max_ms draw).
Proof.
  intros Hn. unfold human_delay.
  destruct (decide (distribution = "normal")) as [E|N].
  - rewrite np_random_normal_run by (specialize (Hn E); qdiv_const; lra).
    eexists. split; [| reflexivity]. run_io.
    destruct (time_sleep _) as [tr r]. reflexivity.
  - eexists. split; [| reflexivity]. run_io.
    destruct (time_sleep _) as [tr r]. reflexivity.
Qed.

(** X14. With [0 <= min_ms <= max_ms] and [max_ms] a length that
    [time.sleep] accepts (at most 9e12 ms), [human_delay] does not fail,
    whatever the [distribution] string (anything but ['normal'] draws
    uniformly): it sleeps exactly once, for at least [min_ms / 1000] and at
    most [max_ms / 1000] seconds.  With bounds of 9.3e12 ms or more it
    sleeps for nothing: [time.sleep] raises [OverflowError]. *)
Theorem human_delay_valid_bounds
    (min_ms max_ms draw : Q) (distribution : string) :
  0 <= min_ms -> min_ms <= max_ms ->
  (distribution <> "normal" -> 0 <= draw <= 1) ->
  (max_ms <= sleepable_ms ->
   exists seconds : Q,
     human_delay min_ms max_ms distribution draw = ([Sleep seconds], inr tt)
     /\ min_ms / 1000 <= seconds <= max_ms / 1000)
  /\ (unsleepable_ms <= min_ms ->
      human_delay min_ms max_ms distribution draw
      = ([], inl OverflowError)).
Proof.
  intros H0 Hle Hu.
  destruct (human_delay_run min_ms max_ms draw distribution)
    as (delay_ms & -> & E); [intros _; exact Hle |].
  assert (min_ms <= delay_ms <= max_ms) as [Hlo Hhi].
  { rewrite E. destruct (decide (distribution = "normal")) as [_|N].
    - apply np_clip_bounds, Hle.
    - apply random_uniform_bounds; [exact Hle | apply Hu, N]. }
  split.
  - intros Hlim. exists (delay_ms / 1000). split.
    + apply time_sleep_run; [qdiv_const; lra |].
      apply sleepable_ms_within_limit. lra.
    + qdiv_const. lra.
  - intros Hbig. apply time_sleep_overflow. qdiv_const. lra.
Qed.

(** The pause between scroll steps, drawn uniformly; and a pause of
    1e13 ms. *)
Lemma human_delay_valid_bounds_witness :
  (exists seconds : Q,
     human_delay 50 150 "uniform" 0.5 = ([Sleep seconds], inr tt)
     /\ 50 / 1000 <= seconds <= 150 / 1000)
  /\ human_delay 10000000000000 10000000000000 "uniform" 0.5
     = ([], inl OverflowError).
Proof.
  split.
  - apply (human_delay_valid_bounds 50 150 0.5 "uniform").
    + vm_compute. discriminate.
    + vm_compute. discriminate.
    + intros _. vm_compute. intuition discriminate.
    + vm_compute. discriminate.
  - apply (human_delay_valid_bounds 10000000000000 10000000000000 0.5
             "uniform").
    + vm_compute. discriminate.
    + vm_compute. discriminate.
    + intros _. vm_compute. intuition discriminate.
    + vm_compute. discriminate.
Defined.

(** X15. With equal bounds nothing is left to chance: for [m] between 0
    and 9e12 ms, [human_delay(m, m)] sleeps for [m / 1000] seconds
    whatever the distribution and the draw. *)
Theorem human_delay_equal_bounds (m draw : Q) (distribution : string) :
  0 <= m -> m <= sleepable_ms ->
  exists seconds : Q,
    human_delay m m distribution draw = ([Sleep seconds], inr tt)
    /\ seconds == m / 1000.
Proof.
  intros H0 Hlim.
  destruct (human_delay_run m m draw distribution)
    as (delay_ms & -> & E); [intros _; lra |].
  assert (delay_ms == m) as Hm.
  { rewrite E. destruct (decide (distribution = "normal")) as [_|N].
    - pose proof (np_clip_bounds ((m + m) / 2 + (m - m) / 6 * draw) m m)
        as [? ?]; [lra |]. lra.
    - unfold random_uniform. ring. }
  exists (delay_ms / 1000). split.
  - apply time_sleep_run; [qdiv_const; lra |].
    apply sleepable_ms_within_limit. lra.
  - rewrite Hm. reflexivity.
Qed.

(** A fixed pause of 80 ms with an extreme normal sample. *)
Lemma human_delay_equal_bounds_witness :
  exists seconds : Q,
    human_delay 80 80 "normal" 1000 = ([Sleep seconds], inr tt)
    /\ seconds == 80 / 1000.
Proof.
  apply (human_delay_equal_bounds 80 1000 "normal").
  - vm_compute. discriminate.
  - vm_compute. discriminate.
Defined.

(** X16. With both bounds negative -- [min_ms <= max_ms], [max_ms] at
    least a nanosecond below zero (so that the length cannot round to
    zero) and [min_ms] no further from zero than 9e12 ms (so that the
    range check of [time.sleep] passes) -- the call fails in [time.sleep]
    with a [ValueError] and has not slept. *)
Theorem human_delay_negative_bounds
    (min_ms max_ms draw : Q) (distribution : string) :
  - sleepable_ms <= min_ms -> min_ms <= max_ms ->
  max_ms <= - (1 # 1000000) ->
  (distribution <> "normal" -> 0 <= draw <= 1) ->
  human_delay min_ms max_ms distribution draw
  = ([], inl (ValueError "sleep length must be non-negative")).
Proof.
  intros Hmin Hle Hneg Hu.
  destruct (human_delay_run min_ms max_ms draw distribution)
    as (delay_ms & -> & E); [intros _; exact Hle |].
  assert (min_ms <= delay_ms <= max_ms) as [Hlo Hhi].
  { rewrite E. destruct (decide (distribution = "normal")) as [_|N].
    - apply np_clip_bounds, Hle.
    - apply random_uniform_bounds; [exact Hle | apply Hu, N]. }
  unfold sleepable_ms in Hmin.
  apply time_sleep_negative; unfold sleepable_sec; qdiv_const; lra.
Qed.

(** Bounds of -200 ms and -100 ms. *)
Lemma human_delay_negative_bounds_witness :
  human_delay (-200) (-100) "normal" 0
  = ([], inl (ValueError "sleep length must be non-negative")).
Proof.
  apply (human_delay_negative_bounds (-200) (-100) 0 "normal").
  - vm_compute. discriminate.
  - vm_compute. discriminate.
  - vm_compute. discriminate.
  - intros H. exfalso. apply H. reflexivity.
Defined.

(** X17. With bounds between 0 and nine billion seconds, in either
    order, [reading_pause] does not fail and sleeps once, for a duration
    in seconds between the smaller and the larger bound. *)
Theorem reading_pause_bounds (min_sec max_sec u : Q) :
  0 <= min_sec <= sleepable_sec -> 0 <= max_sec <= sleepable_sec ->
  0 <= u <= 1 ->
  exists seconds : Q,
    reading_pause min_sec max_sec u = ([Sleep seconds], inr tt)
    /\ Qmin min_sec max_sec <= seconds <= Qmax min_sec max_sec.
Proof.
  intros [Hmin Hmin'] [Hmax Hmax'] Hu.
  exists (random_uniform min_sec max_sec u).
  assert (Qmin min_sec max_sec <= random_uniform min_sec max_sec u
          <= Qmax min_sec max_sec) as Hb.
  { destruct (Qlt_le_dec max_sec min_sec) as [Hinv|Hord].
    - rewrite Q.min_r, Q.max_l by lra.
      apply random_uniform_bounds_inverted; [lra | exact Hu].
    - rewrite Q.min_l, Q.max_r by lra.
      apply random_uniform_bounds; [lra | exact Hu]. }
  split; [| exact Hb].
  unfold reading_pause. apply time_sleep_run.
  - apply random_uniform_nonneg; assumption.
  - apply sleepable_sec_within_limit.
    eapply Qle_trans; [apply Hb |]. apply Q.max_lub; assumption.
Qed.

(** The default bounds, 0.5 s and 2.0 s. *)
Lemma reading_pause_bounds_witness :
  exists seconds : Q,
    reading_pause 0.5 2.0 0.25 = ([Sleep seconds], inr tt)
    /\ Qmin 0.5 2.0 <= seconds <= Qmax 0.5 2.0.
Proof.
  apply (reading_pause_bounds 0.5 2.0 0.25);
    vm_compute; intuition discriminate.
Defined.

(** ** Clicks *)

Lemma click_scale_nonneg (variance extent : Z) :
  (0 <= variance)%Z -> (0 <= extent)%Z ->
  0 <= inject_Z (Z.min variance (extent / 3)) / 2.
Proof.
  intros Hv He.
  assert (0 <= inject_Z (Z.min variance (extent / 3))) as H0.
  { change 0 with (inject_Z 0). rewrite <- Zle_Qle.
    apply Z.min_glb; [lia | apply Z.div_pos; lia]. }
  generalize dependent (inject_Z (Z.min variance (extent / 3))).
  intros q Hq. qdiv_const. lra.
Qed.

Lemma click_scale_negative (variance extent : Z) :
  (variance < 0)%Z ->
  inject_Z (Z.min variance (extent / 3)) / 2 < 0.
Proof.
  intros Hv.
  assert (inject_Z (Z.min variance (extent / 3)) < 0) as H0.
  { change 0 with (inject_Z 0). rewrite <- Zlt_Qlt. lia. }
  generalize dependent (inject_Z (Z.min variance (extent / 3))).
  intros q Hq. qdiv_const. lra.
Qed.

(** X18. On an element less than 10 wide the clamp bounds cross and the
    sample no longer matters: the horizontal offset is always
    [width // 2 - 5], left of the centre; on an element less than 5 wide
    that point lies outside the element. *)
Theorem human_click_offset_narrow_element
    (variance width height : Z) (gx gy : Q) :
  (0 <= variance)%Z -> (0 <= width < 10)%Z -> (0 <= height)%Z ->
  exists dy : Z,
    human_click_offset variance width height gx gy
    = inr ((width / 2 - 5)%Z, dy)
    /\ (width / 2 - 5 < 0)%Z
    /\ (width < 5 -> width < 2 * Z.abs (width / 2 - 5))%Z.
Proof.
  intros Hv Hw Hh. unfold human_click_offset.
  rewrite !np_random_normal_run by (apply click_scale_nonneg; lia).
  unfold mbind, result_bind, mret, result_ret, np_clip_int.
  eexists. split; [| split].
  - f_equal. f_equal. Z.to_euclidean_division_equations. lia.
  - Z.to_euclidean_division_equations. lia.
  - intros H5. Z.to_euclidean_division_equations. lia.
Qed.

(** An icon 4 pixels wide: the click goes 3 pixels left of its centre. *)
Lemma human_click_offset_narrow_element_witness :
  exists dy : Z,
    human_click_offset 10 4 20 3 0 = inr ((-3)%Z, dy)
    /\ (4 < 2 * Z.abs (-3))%Z.
Proof.
  destruct (human_click_offset_narrow_element 10 4 20 3 0)
    as (dy & E & _ & H); [lia | lia | lia |].
  exists dy. split; [exact E | apply H; lia].
Defined.

(** X19. What [human_click] returns.  On an element that is not displayed
    it returns [False] and does nothing.  It returns [True] only after a
    click went through, either the queued chain ending in a click or the
    fallback [element.click()]; and it returns [False] only if the element
    was not displayed or the fallback click failed. *)
Theorem human_click_result
    (page : ClickPage) (variance width height : Z) (gx gy g_pause : Q) :
  let tr := fst (human_click page variance width height gx gy g_pause) in
  let ok := snd (human_click page variance width height gx gy g_pause) in
  (is_displayed page = Some false -> tr = [] /\ ok = false)
  /\ (ok = true ->
      (exists dx dy,
         Performed [MoveToElementWithOffset dx dy; Click] true ∈ tr)
      \/ ElementClicked true ∈ tr)
  /\ (ok = false ->
      is_displayed page = Some false \/ click_ok page = false)
  /\ (tr = [] -> is_displayed page = Some false).
Proof.
  intros tr ok. unfold tr, ok, human_click.
  destruct (is_displayed page) as [[|]|] eqn:Ed.
  - destruct (human_click_offset variance width height gx gy)
      as [e|[dx dy]].
    + cbn [fst snd app]. repeat apply conj.
      * discriminate.
      * intros ->. right. set_solver.
      * intros ->. right. reflexivity.
      * discriminate.
    + destruct (human_delay 50 200 "normal" g_pause) as [trd [e|[]]].
      * cbn [fst snd]. repeat apply conj.
        -- discriminate.
        -- intros ->. right. set_solver.
        -- intros ->. right. reflexivity.
        -- intros H. apply app_eq_nil in H as [_ H]. discriminate.
      * destruct (perform_ok page) eqn:Ep; cbn [fst snd app].
        -- repeat apply conj.
           ++ discriminate.
           ++ intros _. left. exists dx, dy. set_solver.
           ++ discriminate.
           ++ intros H. apply app_eq_nil in H as [_ H]. discriminate.
        -- repeat apply conj.
           ++ discriminate.
           ++ intros ->. right. set_solver.
           ++ intros ->. right. reflexivity.
           ++ intros H. apply app_eq_nil in H as [_ H]. discriminate.
  - cbn [fst snd]. repeat apply conj.
    + intros _. split; reflexivity.
    + discriminate.
    + intros _. left. reflexivity.
    + reflexivity.
  - cbn [fst snd app]. repeat apply conj.
    + discriminate.
    + intros ->. right. set_solver.
    + intros ->. right. reflexivity.
    + discriminate.
Qed.

(** X20. On a displayed element at least 10 by 10 with a non-negative
    variance, when the chain goes through: [human_click] first pauses
    (between 50 ms and 200 ms) and only then sends the queued move and
    click together; the offsets lie within the clamp
    [(-extent) // 2 + 5 .. extent // 2 - 5] of each axis; no fallback
    click is made. *)
Theorem human_click_pause_then_chain
    (page : ClickPage) (variance width height : Z) (gx gy g_pause : Q) :
  is_displayed page = Some true -> perform_ok page = true ->
  (0 <= variance)%Z -> (10 <= width)%Z -> (10 <= height)%Z ->
  exists (seconds : Q) (dx dy : Z),
    human_click page variance width height gx gy g_pause
    = ([Waited (Sleep seconds);
        Performed [MoveToElementWithOffset dx dy; Click] true], true)
    /\ 50 / 1000 <= seconds <= 200 / 1000
    /\ ((- width) / 2 + 5 <= dx <= width / 2 - 5)%Z
    /\ ((- height) / 2 + 5 <= dy <= height / 2 - 5)%Z.
Proof.
  intros Hd Hp Hv Hw Hh.
  destruct (human_click_offset_bounds variance width height gx gy Hv Hw Hh)
    as (dx & dy & Eo & Hx & Hy).
  assert (human_delay 50 200 "normal" g_pause
          = ([Sleep (np_clip ((50 + 200) / 2 + (200 - 50) / 6 * g_pause)
                       50 200 / 1000)], inr tt)) as Es
    by (apply human_delay_normal_run;
        [lra | lra | apply short_sleep_within_limit; lra]).
  pose proof (np_clip_bounds ((50 + 200) / 2 + (200 - 50) / 6 * g_pause)
                50 200) as Hc.
  unfold human_click. rewrite Hd, Eo, Es, Hp.
  eexists _, dx, dy. split; [reflexivity |].
  split; [| split; assumption].
  generalize dependent
    (np_clip ((50 + 200) / 2 + (200 - 50) / 6 * g_pause) 50 200).
  intros c _ Hc. qdiv_const. lra.
Qed.

(** A button 120 by 40 on a page where everything succeeds. *)
Lemma human_click_pause_then_chain_witness :
  exists (seconds : Q) (dx dy : Z),
    human_click page_ok 10 120 40 1 (-1) 0
    = ([Waited (Sleep seconds);
        Performed [MoveToElementWithOffset dx dy; Click] true], true).
Proof.
  destruct (human_click_pause_then_chain page_ok 10 120 40 1 (-1) 0)
    as (s & dx & dy & E & _); [reflexivity | reflexivity | lia | lia | lia |].
  exists s, dx, dy. exact E.
Defined.

(** X21. A negative [variance] is not rejected: the sampler's
    [ValueError] is caught, and [human_click] makes one plain
    [element.click()], with no pause and no offset, and returns whether
    that click went through. *)
Theorem human_click_negative_variance
    (page : ClickPage) (variance width height : Z) (gx gy g_pause : Q) :
  is_displayed page = Some true -> (variance < 0)%Z ->
  human_click page variance width height gx gy g_pause
  = ([ElementClicked (click_ok page)], click_ok page).
Proof.
  intros Hd Hv. unfold human_click, human_click_offset.
  rewrite Hd.
  rewrite (np_random_normal_negative_scale 0 _ gx)
    by (apply click_scale_negative, Hv).
  reflexivity.
Qed.

(** A variance of -1 on a page where everything succeeds. *)
Lemma human_click_negative_variance_witness :
  human_click page_ok (-1) 120 40 0 0 0 = ([ElementClicked true], true).
Proof.
  apply (human_click_negative_variance page_ok (-1) 120 40 0 0 0);
    [reflexivity | lia].
Defined.

(** The widest sample to the left on an element 20 wide. *)
Lemma human_click_offset_even_width_witness :
  (Z.abs (-5) <= 20 / 2 - 5)%Z.
Proof.
  apply (human_click_offset_even_width 10 20 20 (-5) 0 (-100) 0).
  - lia.
  - reflexivity.
  - vm_compute. reflexivity.
Defined.

(** ** Scrolling *)










(** X25. Direction of a scroll.  For a non-negative amount, ['down']
    sends only non-negative deltas, and every other direction string --
    ['up'], but also a misspelt or differently cased one -- sends only
    non-positive deltas. *)
Theorem human_scroll_direction
    (direction : string) (amount : Z) (element : bool) (d : ScrollDraws) :
  (0 <= k_steps d < 4)%Z -> (0 <= amount)%Z ->
  let deltas :=
    scroll_deltas
      (effects (human_scroll direction (Some amount) element d)) in
  (direction = "down" -> Forall (fun x => 0 <= x)%Z deltas)
  /\ (direction <> "down" -> Forall (fun x => x <= 0)%Z deltas).
Proof.
  intros Hk Ha deltas.
  destruct (human_scroll_deltas direction amount element d Hk)
    as (Hs & _ & Hrep & _).
  fold deltas in Hrep. rewrite Hrep.
  set (n := random_randint 2 5 (k_steps d)) in *.
  split; intros Hd; apply Forall_replicate;
    destruct (decide (direction = "down")) as [E|N]; try congruence.
  - apply Z.div_pos; lia.
  - Z.to_euclidean_division_equations. nia.
Qed.

(** A direction written with a capital scrolls up. *)
Lemma human_scroll_direction_witness :
  Forall (fun x => x <= 0)%Z
    (scroll_deltas
       (effects (human_scroll "Down" (Some 300%Z) false scroll_draws_mid))).
Proof.
  apply (human_scroll_direction "Down" 300 false scroll_draws_mid).
  - cbn. lia.
  - lia.
  - discriminate.
Defined.

(** ** Idle movement and typos *)

(** X26. [random_mouse_movement] moves only when [random()] is below 0.3,
    and then by at most 50 pixels sideways and 30 pixels vertically in the
    small mode, 200 and 100 in the large mode. *)
Theorem random_mouse_movement_bounds
    (coin : Q) (small_movement : bool) (kx ky : Z) :
  (if small_movement
   then (0 <= kx < 101)%Z /\ (0 <= ky < 61)%Z
   else (0 <= kx < 401)%Z /\ (0 <= ky < 201)%Z) ->
  match random_mouse_movement coin small_movement kx ky with
  | None => 0.3 <= coin
  | Some (x, y) =>
      coin < 0.3
      /\ if small_movement
         then (Z.abs x <= 50)%Z /\ (Z.abs y <= 30)%Z
         else (Z.abs x <= 200)%Z /\ (Z.abs y <= 100)%Z
  end.
Proof.
  intros Hk. unfold random_mouse_movement, random_randint.
  destruct (Qltb coin 0.3) eqn:Ec.
  - apply Qltb_spec in Ec. destruct small_movement; cbn;
      (split; [exact Ec | lia]).
  - apply Qltb_false in Ec. exact Ec.
Qed.

(** A small movement with both draws at their maximum. *)
Lemma random_mouse_movement_bounds_witness :
  match random_mouse_movement 0.1 true 100 60 with
  | None => 0.3 <= 0.1
  | Some (x, y) => 0.1 < 0.3 /\ (Z.abs x <= 50)%Z /\ (Z.abs y <= 30)%Z
  end.
Proof.
  apply (random_mouse_movement_bounds 0.1 true 100 60). cbn. lia.
Defined.

Lemma string_app_assoc (a b c : string) :
  (a +:+ b) +:+ c = a +:+ (b +:+ c).
Proof.
  induction a as [| x a IH]; [reflexivity |].
  change (String x ((a +:+ b) +:+ c) = String x (a +:+ (b +:+ c))).
  rewrite IH. reflexivity.
Qed.

Lemma string_length_app (a b : string) :
  String.length (a +:+ b) = (String.length a + String.length b)%nat.
Proof.
  induction a as [| x a IH]; [reflexivity |].
  change (S (String.length (a +:+ b))
          = S (String.length a + String.length b)).
  rewrite IH. reflexivity.
Qed.

(** X27. [typo_simulation] never loses the text: the result starts with
    it.  With [random()] at least 0.05 the text comes back unchanged;
    below 0.05 exactly two characters are appended, the [k]-th lowercase
    letter and a backspace. *)
Theorem typo_simulation_shape (text : string) (coin : Q) (k : nat) :
  (k < 26)%nat ->
  exists out : string,
    typo_simulation text coin k = Some out
    /\ (0.05 <= coin -> out = text)
    /\ (coin < 0.05 ->
        exists c : Ascii.ascii,
          out = text +:+ String c (String backspace "")
          /\ Ascii.nat_of_ascii c = (97 + k)%nat
          /\ String.length out = (String.length text + 2)%nat).
Proof.
  intros Hk. unfold typo_simulation.
  destruct (Qltb coin 0.05) eqn:Ec.
  - apply Qltb_spec in Ec.
    assert (exists c, random_choice "abcdefghijklmnopqrstuvwxyz" k = Some c
                      /\ Ascii.nat_of_ascii c = (97 + k)%nat)
      as (c & -> & Hc).
    { do 26 (destruct k as [| k]; [eexists; split; reflexivity |]). lia. }
    eexists. split; [reflexivity |]. split; [intros H; lra |].
    intros _. exists c. rewrite string_app_assoc.
    split; [reflexivity |]. split; [exact Hc |].
    rewrite string_length_app. reflexivity.
  - apply Qltb_false in Ec. exists text. split; [reflexivity |].
    split; [reflexivity | intros H; lra].
Qed.

(** The last letter of the alphabet appended to a word. *)
Lemma typo_simulation_shape_witness :
  exists out : string,
    typo_simulation "attack" 0.01 25 = Some out
    /\ String.length out = 8%nat.
Proof.
  destruct (typo_simulation_shape "attack" 0.01 25) as (out & E & _ & H).
  - lia.
  - exists out. split; [exact E |].
    destruct H as (c & _ & _ & Hlen).
    + vm_compute. reflexivity.
    + exact Hlen.
Defined.
